(** * get_papers_list: extraction and classification pipeline

    A shallow embedding of [src/get_papers_list/get_papers_list.py]:
    the affiliation classifier [is_non_academic], the per-paper loop of
    [process_papers] and the batched retrieval of [fetch_paper_details].

    Text is modelled by [string]; a character is a code point below 256,
    and the text methods ([lower], [strip], [split], [repr]) follow what
    Python does on such code points.  Raw records are nested values built
    from [None], text, lists and dictionaries; a dictionary is an
    association list in insertion order, looked up by first match.
    Exceptions are explicit: fallible code returns a [result]. *)

From Stdlib Require Import List String Ascii Bool Arith ZArith DecimalString Lia.
From Equations Require Import Equations.
Import ListNotations.
Local Open Scope list_scope.
Local Open Scope string_scope.

(** ** Text primitives *)

Module PyStr.

Definition code (c : ascii) : nat := nat_of_ascii c.

Definition between (lo hi n : nat) : bool := Nat.leb lo n && Nat.leb n hi.

(** [str.isspace] on one character. *)
Definition is_space (c : ascii) : bool :=
  let n := code c in
  between 9 13 n || between 28 32 n || Nat.eqb n 133 || Nat.eqb n 160.

(** Characters that [str.lower] changes. *)
Definition is_upper (c : ascii) : bool :=
  let n := code c in
  between 65 90 n || (between 192 222 n && negb (Nat.eqb n 215)).

Definition lower_char (c : ascii) : ascii :=
  if is_upper c then ascii_of_nat (code c + 32) else c.

(** [s.lower()] *)
Fixpoint lower (s : string) : string :=
  match s with
  | EmptyString => EmptyString
  | String c s' => String (lower_char c) (lower s')
  end.

(** [sub in s] for two texts. *)
Fixpoint contains (sub s : string) : bool :=
  String.prefix sub s ||
  match s with
  | EmptyString => false
  | String _ s' => contains sub s'
  end.

(** [c in chars], for a character and the argument of [strip]. *)
Fixpoint mem_char (c : ascii) (chars : string) : bool :=
  match chars with
  | EmptyString => false
  | String d chars' => Ascii.eqb c d || mem_char c chars'
  end.

Fixpoint lstrip_by (p : ascii -> bool) (s : string) : string :=
  match s with
  | EmptyString => EmptyString
  | String c s' => if p c then lstrip_by p s' else s
  end.

Fixpoint rstrip_by (p : ascii -> bool) (s : string) : string :=
  match s with
  | EmptyString => EmptyString
  | String c s' =>
      match rstrip_by p s' with
      | EmptyString => if p c then EmptyString else String c EmptyString
      | r => String c r
      end
  end.

Definition strip_by (p : ascii -> bool) (s : string) : string :=
  rstrip_by p (lstrip_by p s).

(** [s.strip()] *)
Definition strip (s : string) : string := strip_by is_space s.

(** [s.strip(chars)] *)
Definition strip_chars (chars s : string) : string :=
  strip_by (fun c => mem_char c chars) s.

(** [s.split(sep)] for a one-character separator. *)
Fixpoint split_on (sep : ascii) (s : string) : list string :=
  match s with
  | EmptyString => [EmptyString]
  | String c s' =>
      if Ascii.eqb c sep then EmptyString :: split_on sep s'
      else match split_on sep s' with
           | w :: ws => String c w :: ws
           | [] => [String c EmptyString]
           end
  end.

(** [s.split()]: the maximal runs of characters that are not spaces. *)
Fixpoint split (s : string) : list string :=
  match s with
  | EmptyString => []
  | String c s' =>
      if is_space c then split s'
      else match s' with
           | EmptyString => [String c EmptyString]
           | String c' _ =>
               if is_space c' then String c EmptyString :: split s'
               else match split s' with
                    | w :: ws => String c w :: ws
                    | [] => [String c EmptyString]
                    end
           end
  end.

(** [sep.join(l)] on a list of texts. *)
Fixpoint join (sep : string) (l : list string) : string :=
  match l with
  | [] => EmptyString
  | [x] => x
  | x :: rest => x ++ sep ++ join sep rest
  end.

(** Truth value of a text: [if s:] *)
Definition truthy (s : string) : bool :=
  match s with EmptyString => false | _ => true end.

(** [x in l] for a text and a list of texts. *)
Definition mem (x : string) (l : list string) : bool :=
  existsb (String.eqb x) l.

(** *** [repr] of a text *)

Definition hex_digit (n : nat) : ascii :=
  if Nat.ltb n 10 then ascii_of_nat (48 + n) else ascii_of_nat (87 + n).

Definition quote1 : ascii := "039"%char.
Definition quote2 : ascii := "034"%char.
Definition backslash : ascii := "092"%char.

Definition is_printable (c : ascii) : bool :=
  let n := code c in
  between 32 126 n || (between 161 255 n && negb (Nat.eqb n 173)).

Definition repr_quote (s : string) : ascii :=
  if mem_char quote1 s && negb (mem_char quote2 s) then quote2 else quote1.

Definition repr_char (q c : ascii) : string :=
  let n := code c in
  if Ascii.eqb c q || Ascii.eqb c backslash then String backslash (String c EmptyString)
  else if Nat.eqb n 9 then "\t"
  else if Nat.eqb n 10 then "\n"
  else if Nat.eqb n 13 then "\r"
  else if is_printable c then String c EmptyString
  else String backslash
         (String "x" (String (hex_digit (n / 16)) (String (hex_digit (n mod 16)) EmptyString))).

Fixpoint repr_body (q : ascii) (s : string) : string :=
  match s with
  | EmptyString => EmptyString
  | String c s' => repr_char q c ++ repr_body q s'
  end.

Definition repr (s : string) : string :=
  let q := repr_quote s in
  String q (repr_body q s ++ String q EmptyString).

End PyStr.

(** ** Values and exceptions *)

#[warnings="-register-all"]
Inductive pyval : Type :=
| PNone
| PStr (s : string)
| PList (l : list pyval)
| PDict (d : list (string * pyval)).

Inductive pyexc : Type := AttributeError | TypeError.

Inductive result (A : Type) : Type :=
| Ok (a : A)
| Raise (e : pyexc).
Arguments Ok {A} a.
Arguments Raise {A} e.

Definition bind {A B} (m : result A) (f : A -> result B) : result B :=
  match m with
  | Ok a => f a
  | Raise e => Raise e
  end.

Notation "x <- m ;; k" := (bind m (fun x => k))
  (at level 61, m at next level, right associativity).

Definition is_ok {A} (m : result A) : bool :=
  match m with Ok _ => true | Raise _ => false end.

Fixpoint assoc (k : string) (d : list (string * pyval)) : option pyval :=
  match d with
  | [] => None
  | (k', v) :: d' => if String.eqb k k' then Some v else assoc k d'
  end.

(** [x.get(k, default)]: only a dictionary has the method. *)
Definition py_get (x : pyval) (k : string) (default : pyval) : result pyval :=
  match x with
  | PDict d => Ok (match assoc k d with Some v => v | None => default end)
  | _ => Raise AttributeError
  end.

(** [isinstance(x, dict)] and the coercion [if not isinstance(x, list): x = [x]]. *)
Definition is_dict (x : pyval) : bool :=
  match x with PDict _ => true | _ => false end.

Definition as_list (x : pyval) : list pyval :=
  match x with PList l => l | _ => [x] end.

(** [str(x)], as an f-string formats a value. *)
Fixpoint py_repr (x : pyval) : string :=
  match x with
  | PNone => "None"
  | PStr s => PyStr.repr s
  | PList l => "[" ++ PyStr.join ", " (map py_repr l) ++ "]"
  | PDict d =>
      "{" ++ PyStr.join ", "
               (map (fun kv => PyStr.repr (fst kv) ++ ": " ++ py_repr (snd kv)) d)
          ++ "}"
  end.

Definition py_str (x : pyval) : string :=
  match x with
  | PStr s => s
  | _ => py_repr x
  end.

(** [sep.join(l)]: every item must be a text. *)
Fixpoint texts_of (l : list pyval) : result (list string) :=
  match l with
  | [] => Ok []
  | PStr s :: l' => ss <- texts_of l' ;; Ok (s :: ss)
  | _ :: _ => Raise TypeError
  end.

Definition py_join (sep : string) (l : list pyval) : result string :=
  ss <- texts_of l ;; Ok (PyStr.join sep ss).

(** ['@' in x]: substring of a text, item of a list, key of a dictionary. *)
Definition is_at (x : pyval) : bool :=
  match x with PStr s => String.eqb s "@" | _ => false end.

Definition at_in (x : pyval) : result bool :=
  match x with
  | PNone => Raise TypeError
  | PStr s => Ok (PyStr.contains "@" s)
  | PList l => Ok (existsb is_at l)
  | PDict d => Ok (existsb (fun kv => String.eqb (fst kv) "@") d)
  end.

(** [x.split()]: only a text has the method. *)
Definition py_split (x : pyval) : result (list string) :=
  match x with
  | PStr s => Ok (PyStr.split s)
  | _ => Raise AttributeError
  end.

(** A [for] loop whose body may raise. *)
Fixpoint for_each {S A : Type} (body : S -> A -> result S) (l : list A) (s : S)
  : result S :=
  match l with
  | [] => Ok s
  | x :: l' => s' <- body s x ;; for_each body l' s'
  end.

(** ** The affiliation classifier *)

Definition COMPANY_KEYWORDS : list string :=
  [ "inc"; "ltd"; "llc"; "corp"; "corporation"; "pharma"; "pharmaceuticals";
    "biotech"; "therapeutics"; "diagnostics"; "biosciences"; "gmbh"; "ag";
    "bv"; "s.a."; "s.l."; "s.r.l." ].

Definition ACADEMIC_DOMAINS : list string := [ ".edu"; ".ac."; ".org" ].

Definition opt_truthy (o : option string) : bool :=
  match o with Some s => PyStr.truthy s | None => false end.

(** [parts = affiliation.split(','); company_name = parts[0].strip()] *)
Definition company_name_of (affiliation : string) : string :=
  let parts := PyStr.split_on "," affiliation in
  PyStr.strip (hd EmptyString parts).

(** Heuristic 1: the loop over the keywords, leaving at the first match. *)
Fixpoint keyword_loop (affiliation affiliation_lower : string)
    (keywords : list string) : option (bool * option string) :=
  match keywords with
  | [] => None
  | keyword :: rest =>
      if PyStr.contains keyword affiliation_lower
      then Some (true, Some (company_name_of affiliation))
      else keyword_loop affiliation affiliation_lower rest
  end.

Definition is_non_academic (affiliation : string) (email : option string)
  : bool * option string :=
  let affiliation_lower :=
    if PyStr.truthy affiliation then PyStr.lower affiliation else EmptyString in
  let email_lower :=
    match email with
    | Some e => if PyStr.truthy e then PyStr.lower e else EmptyString
    | None => EmptyString
    end in
  match keyword_loop affiliation affiliation_lower COMPANY_KEYWORDS with
  | Some r => r
  | None =>
      if opt_truthy email then
        let is_academic_domain :=
          existsb (fun domain => PyStr.contains domain email_lower) ACADEMIC_DOMAINS in
        if negb is_academic_domain then
          if existsb (fun keyword => PyStr.contains keyword affiliation_lower)
               COMPANY_KEYWORDS
          then (true, Some (company_name_of affiliation))
          else (false, None)
        else (false, None)
      else (false, None)
  end.

(** The classifier as the specification words it: one test, no email. *)
Module Reference.

Fixpoint before_first_comma (s : string) : string :=
  match s with
  | EmptyString => EmptyString
  | String c s' =>
      if Ascii.eqb c "," then EmptyString else String c (before_first_comma s')
  end.

Definition has_company_keyword (affiliation : string) : bool :=
  existsb (fun keyword => PyStr.contains keyword (PyStr.lower affiliation))
    COMPANY_KEYWORDS.

Definition classify (affiliation : string) : bool * option string :=
  if has_company_keyword affiliation
  then (true, Some (PyStr.strip (before_first_comma affiliation)))
  else (false, None).

End Reference.

(** ** Processing of the fetched papers *)

(** What the loop body of [process_papers] knows about one author once the
    affiliation fields are read: the three locals [author_name],
    [author_affiliation] and [author_email]. *)
Record Author : Type := mkAuthor {
  author_name : string;
  author_affiliation : string;
  author_email : option string
}.

(** [for word in words: if '@' in word: author_email = word.strip('().,;'); break] *)
Fixpoint scan_words (words : list string) (author_email : option string)
  : option string :=
  match words with
  | [] => author_email
  | word :: rest =>
      if PyStr.contains "@" word
      then Some (PyStr.strip_chars "().,;" word)
      else scan_words rest author_email
  end.

(** Body of [for affil in affiliation_info], on the locals
    [(affiliations_text, author_email)]. *)
Definition affil_step (st : list pyval * option string) (affil : pyval)
  : result (list pyval * option string) :=
  let '(affiliations_text, author_email) := st in
  if is_dict affil then
    affil_text <- py_get affil "Affiliation" (PStr "") ;;
    let affiliations_text := (affiliations_text ++ [affil_text])%list in
    has_at <- at_in affil_text ;;
    if (has_at : bool) then
      words <- py_split affil_text ;;
      Ok (affiliations_text, scan_words words author_email)
    else Ok (affiliations_text, author_email)
  else Ok st.

(** Lines 161-186: name, affiliation text and email of one author entry. *)
Definition normalize_author (author : pyval) : result Author :=
  last_name <- py_get author "LastName" (PStr "") ;;
  fore_name <- py_get author "ForeName" (PStr "") ;;
  let name := PyStr.strip (py_str fore_name ++ " " ++ py_str last_name) in
  affiliation_info <- py_get author "AffiliationInfo" (PList []) ;;
  let affiliation_info := as_list affiliation_info in
  match affiliation_info with
  | [] => Ok (mkAuthor name "" None)
  | _ :: _ =>
      st <- for_each affil_step affiliation_info ([], None) ;;
      author_affiliation <- py_join "; " (fst st) ;;
      Ok (mkAuthor name author_affiliation (snd st))
  end.

(** The four accumulators of the author loop. *)
Record acc : Type := mkAcc {
  non_academic_authors_list : list string;
  company_affiliations_list : list string;
  corresponding_author_email : option string;
  has_non_academic_author : bool
}.

Definition acc0 : acc := mkAcc [] [] None false.

(** Lines 190-196: classify the author and record a non-academic one. *)
Definition record_author (a : acc) (au : Author) : acc :=
  let '(is_na, company_name) :=
    is_non_academic (author_affiliation au) (author_email au) in
  if (is_na : bool) then
    mkAcc (non_academic_authors_list a ++ [author_name au])%list
          (if opt_truthy company_name
              && negb (PyStr.mem (match company_name with Some c => c | None => "" end)
                         (company_affiliations_list a))
           then (company_affiliations_list a
                   ++ [match company_name with Some c => c | None => "" end])%list
           else company_affiliations_list a)
          (corresponding_author_email a)
          true
  else a.

(** Lines 201-202: the first email found becomes the corresponding one. *)
Definition record_email (a : acc) (au : Author) : acc :=
  if opt_truthy (author_email au) && negb (opt_truthy (corresponding_author_email a))
  then mkAcc (non_academic_authors_list a) (company_affiliations_list a)
             (author_email au) (has_non_academic_author a)
  else a.

(** Body of [for author in authors]. *)
Definition author_step (a : acc) (author : pyval) : result acc :=
  if is_dict author then
    au <- normalize_author author ;;
    Ok (record_email (record_author a au) au)
  else Ok a.

(** One row of the output, with the keys of the source's dictionary. *)
Record PaperSummary : Type := mkSummary {
  PubMedID : pyval;
  Title : pyval;
  Publication_Date : string;
  Non_academic_Authors : string;
  Company_Affiliations : string;
  Corresponding_Author_Email : string
}.

(** [f"{pub_year}-{pub_month}-{pub_day}".strip('-')] *)
Definition format_date (pub_year pub_month pub_day : pyval) : string :=
  PyStr.strip_chars "-"
    (py_str pub_year ++ "-" ++ py_str pub_month ++ "-" ++ py_str pub_day).

(** Lines 133-149: the fields read before the author loop. *)
Record header : Type := mkHeader {
  h_pmid : pyval;
  h_title : pyval;
  h_publication_date : string;
  h_authors : list pyval
}.

Definition paper_header (paper : pyval) : result header :=
  medline_citation <- py_get paper "MedlineCitation" (PDict []) ;;
  article <- py_get medline_citation "Article" (PDict []) ;;
  pubmed_data <- py_get paper "PubmedData" (PDict []) ;;
  article_id_list <- py_get pubmed_data "ArticleIdList" (PDict []) ;;
  pmid <- py_get medline_citation "PMID" (PStr "") ;;
  title <- py_get article "ArticleTitle" (PStr "") ;;
  journal <- py_get article "Journal" (PDict []) ;;
  journal_issue <- py_get journal "JournalIssue" (PDict []) ;;
  pub_date_info <- py_get journal_issue "PubDate" (PDict []) ;;
  pub_year <- py_get pub_date_info "Year" (PStr "") ;;
  pub_month <- py_get pub_date_info "Month" (PStr "") ;;
  pub_day <- py_get pub_date_info "Day" (PStr "") ;;
  let publication_date := format_date pub_year pub_month pub_day in
  authors <- py_get article "AuthorList" (PList []) ;;
  Ok (mkHeader pmid title publication_date (as_list authors)).

Definition summary_of (h : header) (a : acc) : option PaperSummary :=
  if has_non_academic_author a then
    Some (mkSummary (h_pmid h) (h_title h) (h_publication_date h)
            (PyStr.join "; " (non_academic_authors_list a))
            (PyStr.join "; " (company_affiliations_list a))
            (if opt_truthy (corresponding_author_email a)
             then match corresponding_author_email a with Some e => e | None => "" end
             else "N/A"))
  else None.

(** The body of the [try]: the row to append, if any. *)
Definition process_paper (paper : pyval) : result (option PaperSummary) :=
  h <- paper_header paper ;;
  a <- for_each author_step (h_authors h) acc0 ;;
  Ok (summary_of h a).

(** The first line of the handler:
    [paper.get('MedlineCitation', {}).get('PMID', 'UNKNOWN')]. *)
Definition pmid_for_error (paper : pyval) : result pyval :=
  medline_citation <- py_get paper "MedlineCitation" (PDict []) ;;
  py_get medline_citation "PMID" (PStr "UNKNOWN").

Inductive log_entry : Type :=
| InfoProcessing (n : nat)
| WarnCouldNotProcess (pmid : pyval) (e : pyexc)
| ExceptionDetail
| InfoFinished (n : nat)
| InfoFetching (n : nat)
| InfoFetchedBatch (k : nat)
| ErrorFetchingBatch (k : nat) (e : pyexc)
| InfoFetched (n : nat).

(** [for paper in papers_data], on [results] and the log.  An exception
    raised by the handler itself leaves the loop and the function. *)
Fixpoint papers_loop (debug : bool) (papers : list pyval)
    (results : list PaperSummary) (log : list log_entry)
  : list log_entry * result (list PaperSummary) :=
  match papers with
  | [] => (log, Ok results)
  | paper :: rest =>
      match process_paper paper with
      | Ok (Some row) => papers_loop debug rest (results ++ [row])%list log
      | Ok None => papers_loop debug rest results log
      | Raise e =>
          match pmid_for_error paper with
          | Ok pmid =>
              papers_loop debug rest results
                (log ++ WarnCouldNotProcess pmid e
                     :: (if debug then [ExceptionDetail] else []))%list
          | Raise e' => (log, Raise e')
          end
      end
  end.

(** [debug] is [logger.level == logging.DEBUG]. *)
Definition process_papers (debug : bool) (papers_data : list pyval)
  : list log_entry * result (list PaperSummary) :=
  match papers_loop debug papers_data [] [InfoProcessing (List.length papers_data)] with
  | (log, Ok results) => ((log ++ [InfoFinished (List.length results)])%list, Ok results)
  | (log, Raise e) => (log, Raise e)
  end.

(** ** Batched retrieval *)

Definition batch_size : nat := 100.

(** [range(i, n, batch_size)] *)
Equations? range_batches (i n : nat) : list nat by wf (n - i) lt :=
  range_batches i n with lt_dec i n := {
    | left _ => i :: range_batches (i + batch_size) n
    | right _ => [] }.
Proof. unfold batch_size. lia. Qed.

(** [l[i:j]] *)
Definition py_slice {A : Type} (l : list A) (i j : nat) : list A :=
  firstn (j - i) (skipn i l).

Section Fetch.

(** The record source.  [efetch_read] stands for the three calls
    [Entrez.efetch], [Entrez.read] and [handle.close] on one batch: they
    return the parsed response or raise, and may change the source. *)
Variable World : Type.
Variable efetch_read : list string -> World -> result pyval * World.

Record fetch_state : Type := mkFetch {
  papers_data : list pyval;
  fetch_log : list log_entry;
  world : World
}.

(** The [try] of one batch: the articles to append. *)
Definition batch_articles (response : result pyval) : result (list pyval) :=
  records <- response ;;
  articles <- py_get records "PubmedArticle" (PList []) ;;
  Ok (as_list articles).

(** Body of [for i in range(0, len(pmids), batch_size)]. *)
Definition fetch_batch (pmids : list string) (st : fetch_state) (i : nat)
  : fetch_state :=
  let batch_pmids := py_slice pmids i (i + batch_size) in
  let '(response, w) := efetch_read batch_pmids (world st) in
  match batch_articles response with
  | Ok articles =>
      mkFetch (papers_data st ++ articles)%list
              (fetch_log st ++ [InfoFetchedBatch (i / batch_size + 1)])%list w
  | Raise e =>
      mkFetch (papers_data st)
              (fetch_log st ++ [ErrorFetchingBatch (i / batch_size + 1) e])%list w
  end.

Definition fetch_paper_details (pmids : list string) (w : World) : fetch_state :=
  match pmids with
  | [] => mkFetch [] [] w
  | _ :: _ =>
      let st := fold_left (fetch_batch pmids)
                  (range_batches 0 (List.length pmids))
                  (mkFetch [] [InfoFetching (List.length pmids)] w) in
      mkFetch (papers_data st)
              (fetch_log st ++ [InfoFetched (List.length (papers_data st))])%list
              (world st)
  end.

(** The responses of the source to a sequence of batches, asked one
    after the other. *)
Fixpoint responses (batches : list (list string)) (w : World)
  : list (result pyval) :=
  match batches with
  | [] => []
  | b :: bs => let '(r, w') := efetch_read b w in r :: responses bs w'
  end.

(** What one response contributes to the returned records. *)
Definition contribution (response : result pyval) : list pyval :=
  match batch_articles response with
  | Ok articles => articles
  | Raise _ => []
  end.

End Fetch.

Arguments papers_data {World} _.
Arguments fetch_log {World} _.
Arguments world {World} _.

(** The partition as the specification words it: chunks of 100, in order. *)
Equations? chunks {A : Type} (l : list A) : list (list A) by wf (List.length l) lt :=
  chunks [] := [];
  chunks (x :: l') := firstn batch_size (x :: l') :: chunks (skipn batch_size (x :: l')).
Proof.
  change (List.length (skipn 99 l') < S (List.length l')).
  rewrite length_skipn. lia.
Qed.

(** ** Notions the properties are stated with *)

(** The authors of a list that the loop body gets to classify: the
    dictionary entries whose fields are read without an exception. *)
Definition normalized (authors : list pyval) : list Author :=
  flat_map (fun author =>
              if is_dict author then
                match normalize_author author with
                | Ok au => [au]
                | Raise _ => []
                end
              else []) authors.

Definition classified_non_academic (au : Author) : bool :=
  fst (is_non_academic (author_affiliation au) (author_email au)).

(** The organization guess the loop keeps for an author, if any. *)
Definition guess_of (au : Author) : list string :=
  match is_non_academic (author_affiliation au) (author_email au) with
  | (true, Some c) => if PyStr.truthy c then [c] else []
  | _ => []
  end.

Definition email_of (au : Author) : list string :=
  match author_email au with Some e => [e] | None => [] end.

(** A list without its repetitions, every item at its first place. *)
Fixpoint first_seen (l : list string) : list string :=
  match l with
  | [] => []
  | x :: l' => x :: filter (fun y => negb (String.eqb y x)) (first_seen l')
  end.

(** The author entries of a paper, when its fields can be read. *)
Definition paper_authors (paper : pyval) : list pyval :=
  match paper_header paper with
  | Ok h => h_authors h
  | Raise _ => []
  end.

Definition has_non_academic (paper : pyval) : bool :=
  existsb classified_non_academic (normalized (paper_authors paper)).

(** What one record adds to [results]. *)
Definition emitted (paper : pyval) : list PaperSummary :=
  match process_paper paper with
  | Ok (Some row) => [row]
  | _ => []
  end.

(** A record on which the handler's own lookup of the identifier works. *)
Definition handler_safe (paper : pyval) : bool := is_ok (pmid_for_error paper).

(** Sample records. *)
Definition author_entry (fore last : string) (affiliations : list pyval) : pyval :=
  PDict [("LastName", PStr last); ("ForeName", PStr fore);
         ("AffiliationInfo",
          PList (map (fun a => PDict [("Affiliation", a)]) affiliations))].

Definition paper_entry (pmid : string) (pub_date : list (string * pyval))
    (authors : pyval) : pyval :=
  PDict [("MedlineCitation",
          PDict [("PMID", PStr pmid);
                 ("Article",
                  PDict [("ArticleTitle", PStr "A title");
                         ("Journal",
                          PDict [("JournalIssue", PDict [("PubDate", PDict pub_date)])]);
                         ("AuthorList", authors)])])].

(** An email the loop body extracts always holds an [@]. *)
Definition email_ok (e : option string) : Prop :=
  forall x, e = Some x -> PyStr.contains "@" x = true.

(** One turn of the author loop on an author whose fields were read. *)
Definition record (a : acc) (au : Author) : acc :=
  record_email (record_author a au) au.

Definition add_new (seen : list string) (x : string) : list string :=
  if PyStr.mem x seen then seen else (seen ++ [x])%list.

Definition unseen (seen : list string) (y : string) : bool :=
  negb (PyStr.mem y seen).

Definition first_email (l : list Author) : option string :=
  match flat_map email_of l with
  | [] => None
  | e :: _ => Some e
  end.



Definition industry_author : pyval :=
  author_entry "Ann" "Lee" [PStr "Novartis AG, Basel"].

Definition academic_author : pyval :=
  author_entry "Bo" "Ray" [PStr "Dept. of Biology, Stanford University"].

Definition two_field_author : pyval :=
  author_entry "Cy" "Poe"
    [PStr "Dept. of Biology, Uni X. cy@x.edu";
     PStr "Acme Inc, Boston (cy.poe@acme.com)."].

Definition broken_author : pyval := author_entry "Di" "Fox" [PNone].

Definition industry_paper : pyval :=
  paper_entry "1" [("Year", PStr "2020"); ("Month", PStr "Jan")]
    (PList [academic_author; industry_author]).

Definition academic_paper : pyval :=
  paper_entry "2" [("Year", PStr "2021")] (PList [academic_author]).

Definition broken_paper : pyval :=
  paper_entry "3" [] (PList [industry_author; broken_author]).

Definition no_month_paper : pyval :=
  paper_entry "4" [("Year", PStr "2020"); ("Day", PStr "15")]
    (PList [industry_author]).

Definition two_field_paper : pyval :=
  paper_entry "5" [("Year", PStr "2019")] (PList [two_field_author; industry_author]).

Definition text_citation_paper : pyval :=
  PDict [("MedlineCitation", PStr "12345")].

Definition industry_summary : PaperSummary :=
  mkSummary (PStr "1") (PStr "A title") "2020-Jan" "Ann Lee" "Novartis AG" "N/A".

(** A source that answers every batch with one article per identifier,
    except the second call, which fails. *)
Definition sample_ids (n : nat) : list string :=
  map (fun k => String (ascii_of_nat k) EmptyString) (seq 0 n).

Definition second_call_fails (batch : list string) (calls : nat)
  : result pyval * nat :=
  (if Nat.eqb calls 1 then Raise TypeError
   else Ok (PDict [("PubmedArticle", PList (map PStr batch))]),
   S calls).


(** ** Notions for the further properties *)

Definition first_char (s : string) : option ascii :=
  match s with
  | EmptyString => None
  | String c _ => Some c
  end.

Fixpoint last_char (s : string) : option ascii :=
  match s with
  | EmptyString => None
  | String c s' =>
      match s' with
      | EmptyString => Some c
      | String _ _ => last_char s'
      end
  end.

Definition char_is (p : ascii -> bool) (o : option ascii) : bool :=
  match o with Some c => p c | None => false end.

(** Neither the first nor the last character satisfies [p]. *)
Definition clean_ends (p : ascii -> bool) (s : string) : bool :=
  negb (char_is p (first_char s)) && negb (char_is p (last_char s)).

Fixpoint any_char (p : ascii -> bool) (s : string) : bool :=
  match s with
  | EmptyString => false
  | String c s' => p c || any_char p s'
  end.

Definition is_dash (c : ascii) : bool := PyStr.mem_char c "-".
Definition is_email_punctuation (c : ascii) : bool := PyStr.mem_char c "().,;".

(** [d.get(k, default)] on the items of a dictionary. *)
Definition field (d : list (string * pyval)) (k : string) (default : pyval) : pyval :=
  match assoc k d with Some v => v | None => default end.

(** The values the affiliation loop appends, one per mapping entry. *)
Definition raw_texts (info : list pyval) : list pyval :=
  flat_map (fun affil =>
              match affil with
              | PDict d => [field d "Affiliation" (PStr "")]
              | _ => []
              end) info.

(** An entry of the affiliation info that the loop reads without an
    exception: anything but a mapping whose [Affiliation] is not a text. *)
Definition affil_readable (affil : pyval) : bool :=
  match affil with
  | PDict d =>
      match field d "Affiliation" (PStr "") with PStr _ => true | _ => false end
  | _ => true
  end.

Definition affiliation_texts (info : list pyval) : list string :=
  flat_map (fun v => match v with PStr s => [s] | _ => [] end) (raw_texts info).

(** What one record adds to the log: a warning when its processing raises
    and the handler finds an identifier to report. *)
Definition paper_warnings (debug : bool) (paper : pyval) : list log_entry :=
  match process_paper paper with
  | Ok _ => []
  | Raise e =>
      match pmid_for_error paper with
      | Ok pmid =>
          WarnCouldNotProcess pmid e :: (if debug then [ExceptionDetail] else [])
      | Raise _ => []
      end
  end.

(** The names of the authors classified non-academic, in author order. *)
Definition non_academic_names (authors : list pyval) : list string :=
  map author_name (filter classified_non_academic (normalized authors)).

(** A date component that is present and neither begins nor ends with the
    separator. *)
Definition plain_component (s : string) : bool :=
  PyStr.truthy s && clean_ends is_dash s.

(** The batches the loop of [fetch_paper_details] takes, in order. *)
Definition batches_of (pmids : list string) : list (list string) :=
  map (fun i => py_slice pmids i (i + batch_size))
      (range_batches 0 (List.length pmids)).

(** The log line of the batch numbered [k], given the source's response. *)
Definition batch_log_entry (k : nat) (response : result pyval) : log_entry :=
  match batch_articles response with
  | Ok _ => InfoFetchedBatch k
  | Raise e => ErrorFetchingBatch k e
  end.

(** ** The search *)

(** [len(x)] *)
Definition py_len (x : pyval) : result nat :=
  match x with
  | PNone => Raise TypeError
  | PStr s => Ok (String.length s)
  | PList l => Ok (List.length l)
  | PDict d => Ok (List.length d)
  end.

(** What the [try] of [search_pubmed] can raise: an exception of the kinds
    above, or the [KeyError] of a missing key. *)
Inductive search_exc : Type :=
| SearchRaised (e : pyexc)
| KeyError (key : string).

(** [x[k]] for a text key: the item of a mapping; nothing else can be
    indexed by a text. *)
Definition py_item (x : pyval) (k : string) : search_exc + pyval :=
  match x with
  | PDict d =>
      match assoc k d with
      | Some v => inr v
      | None => inl (KeyError k)
      end
  | _ => inl (SearchRaised TypeError)
  end.

Inductive search_log_entry : Type :=
| InfoSearching (query : string)
| InfoFound (n : nat)
| ErrorSearching (e : search_exc).

(** [str(retmax)] *)
Definition py_str_int (n : Z) : string := NilZero.string_of_int (Z.to_int n).

(** [esearch_read term retmax] stands for the calls [Entrez.esearch],
    [Entrez.read] and [handle.close] of the search. *)
Definition search_pubmed {World : Type}
    (esearch_read : string -> string -> World -> result pyval * World)
    (query : string) (retmax : Z) (w : World)
  : pyval * list search_log_entry * World :=
  let '(response, w') := esearch_read query (py_str_int retmax) w in
  let attempt : search_exc + (pyval * nat) :=
    match response with
    | Raise e => inl (SearchRaised e)
    | Ok record =>
        match py_item record "IdList" with
        | inl e => inl e
        | inr pmids =>
            match py_len pmids with
            | Ok n => inr (pmids, n)
            | Raise e => inl (SearchRaised e)
            end
        end
    end in
  match attempt with
  | inr (pmids, n) => (pmids, [InfoSearching query; InfoFound n], w')
  | inl e => (PList [], [InfoSearching query; ErrorSearching e], w')
  end.

(** The default of the keyword argument [retmax]. *)
Definition default_retmax : Z := 1000%Z.

(** A search source that counts its calls and answers with the identifier
    list it is built with. *)
Definition answer_with (record : pyval) (term retmax : string) (calls : nat)
  : result pyval * nat :=
  (Ok record, S calls).

(** * Properties *)

(** ** Text *)

Lemma contains_at_cons (c : ascii) (s : string) :
  PyStr.contains "@" (String c s) =
  (if ascii_dec "@" c then true else false) || PyStr.contains "@" s.
Proof.
  cbn [PyStr.contains String.prefix].
  destruct (ascii_dec "@" c); [now destruct s|reflexivity].
Qed.

Lemma contains_at_lstrip (p : ascii -> bool) (s : string) :
  p "@"%char = false ->
  PyStr.contains "@" s = true ->
  PyStr.contains "@" (PyStr.lstrip_by p s) = true.
Proof.
  intros Hp. induction s as [|c s IH]; [trivial|].
  intros H. cbn [PyStr.lstrip_by].
  destruct (p c) eqn:Hc; [|exact H].
  apply IH. rewrite contains_at_cons in H.
  destruct (ascii_dec "@" c) as [E|_]; [subst c; congruence|exact H].
Qed.

Lemma contains_at_rstrip (p : ascii -> bool) (s : string) :
  p "@"%char = false ->
  PyStr.contains "@" s = true ->
  PyStr.contains "@" (PyStr.rstrip_by p s) = true.
Proof.
  intros Hp. induction s as [|c s IH]; [trivial|].
  intros H. cbn [PyStr.rstrip_by]. rewrite contains_at_cons in H.
  destruct (ascii_dec "@" c) as [E|Hne].
  - subst c. rewrite Hp. destruct (PyStr.rstrip_by p s); rewrite contains_at_cons;
      now destruct (ascii_dec "@" "@").
  - simpl in H. specialize (IH H).
    destruct (PyStr.rstrip_by p s) as [|d r]; [discriminate IH|].
    rewrite contains_at_cons, IH. apply orb_true_r.
Qed.

Lemma contains_at_strip_chars (word : string) :
  PyStr.contains "@" word = true ->
  PyStr.contains "@" (PyStr.strip_chars "().,;" word) = true.
Proof.
  intros H. unfold PyStr.strip_chars, PyStr.strip_by.
  apply contains_at_rstrip; [reflexivity|].
  apply contains_at_lstrip; [reflexivity|exact H].
Qed.

Lemma split_on_hd (s : string) :
  hd EmptyString (PyStr.split_on "," s) = Reference.before_first_comma s.
Proof.
  induction s as [|c s IH]; simpl; [reflexivity|].
  destruct (Ascii.eqb c ","); [reflexivity|].
  destruct (PyStr.split_on "," s); simpl in *; now rewrite <- IH.
Qed.

Lemma lower_empty_guard (s : string) :
  (if PyStr.truthy s then PyStr.lower s else EmptyString) = PyStr.lower s.
Proof. now destruct s. Qed.

(** ** The classifier *)

Lemma keyword_loop_existsb (affiliation affiliation_lower : string)
    (keywords : list string) :
  keyword_loop affiliation affiliation_lower keywords =
  if existsb (fun keyword => PyStr.contains keyword affiliation_lower) keywords
  then Some (true, Some (company_name_of affiliation))
  else None.
Proof.
  induction keywords as [|k ks IH]; simpl; [reflexivity|].
  destruct (PyStr.contains k affiliation_lower); simpl; [reflexivity|exact IH].
Qed.


(** ** The author loop *)

Lemma scan_words_ok (words : list string) (e : option string) :
  email_ok e -> email_ok (scan_words words e).
Proof.
  intros He. induction words as [|w ws IH]; simpl; [exact He|].
  destruct (PyStr.contains "@" w) eqn:Hw; [|exact IH].
  intros x [= <-]. now apply contains_at_strip_chars.
Qed.

Lemma affil_step_ok (st st' : list pyval * option string) (affil : pyval) :
  affil_step st affil = Ok st' -> email_ok (snd st) -> email_ok (snd st').
Proof.
  destruct st as [texts e]. unfold affil_step.
  destruct (is_dict affil); [|now intros [= <-]].
  destruct (py_get affil "Affiliation" (PStr "")) as [t|]; simpl; [|discriminate].
  destruct (at_in t) as [[|]|]; simpl; try discriminate.
  - destruct (py_split t) as [ws|]; simpl; [|discriminate].
    intros [= <-] He. now apply scan_words_ok.
  - now intros [= <-].
Qed.

Lemma affil_loop_ok (l : list pyval) (st st' : list pyval * option string) :
  for_each affil_step l st = Ok st' -> email_ok (snd st) -> email_ok (snd st').
Proof.
  revert st. induction l as [|x l IH]; simpl; intros st.
  - now intros [= <-].
  - destruct (affil_step st x) as [st1|] eqn:H1; simpl; [|discriminate].
    intros H He. apply (IH _ H). exact (affil_step_ok _ _ _ H1 He).
Qed.

Lemma normalize_author_email_ok (author : pyval) (au : Author) :
  normalize_author author = Ok au -> email_ok (author_email au).
Proof.
  unfold normalize_author.
  destruct (py_get author "LastName" (PStr "")) as [ln|]; simpl; [|discriminate].
  destruct (py_get author "ForeName" (PStr "")) as [fn|]; simpl; [|discriminate].
  destruct (py_get author "AffiliationInfo" (PList [])) as [ai|]; simpl; [|discriminate].
  destruct (as_list ai) as [|x l] eqn:Hl.
  - intros [= <-]. intros x [=].
  - destruct (for_each affil_step (x :: l) ([], None)) as [st|] eqn:Hst;
      simpl; [|discriminate].
    destruct (py_join "; " (fst st)); simpl; [|discriminate].
    intros [= <-]. simpl. apply (affil_loop_ok _ _ _ Hst). intros y [=].
Qed.

Lemma author_loop_normalized (l : list pyval) (a a' : acc) :
  for_each author_step l a = Ok a' ->
  a' = fold_left record (normalized l) a.
Proof.
  revert a. induction l as [|x l IH]; simpl; intros a.
  - now intros [= <-].
  - unfold author_step at 1, normalized. simpl.
    destruct (is_dict x); simpl; [|apply IH].
    destruct (normalize_author x) as [au|]; simpl; [|discriminate].
    apply IH.
Qed.

Lemma normalized_In (l : list pyval) (au : Author) :
  In au (normalized l) ->
  exists author, In author l /\ normalize_author author = Ok au.
Proof.
  unfold normalized. rewrite in_flat_map. intros (x & Hx & Hau).
  exists x. split; [exact Hx|].
  destruct (is_dict x); [|contradiction].
  destruct (normalize_author x); simpl in Hau; [|contradiction].
  now destruct Hau as [->|[]].
Qed.

Lemma normalized_emails_ok (l : list pyval) :
  Forall (fun au => email_ok (author_email au)) (normalized l).
Proof.
  apply Forall_forall. intros au (x & _ & H)%normalized_In.
  exact (normalize_author_email_ok _ _ H).
Qed.

(** *** The flag *)

Lemma record_flag (a : acc) (au : Author) :
  has_non_academic_author (record a au) =
  has_non_academic_author a || classified_non_academic au.
Proof.
  unfold record, record_email, record_author, classified_non_academic.
  destruct (is_non_academic _ _) as [[|] c]; simpl;
    destruct (_ && _); simpl; auto using orb_true_r, orb_false_r.
Qed.

Lemma fold_record_flag (l : list Author) (a : acc) :
  has_non_academic_author (fold_left record l a) =
  has_non_academic_author a || existsb classified_non_academic l.
Proof.
  revert a. induction l as [|au l IH]; simpl; intros a.
  - now rewrite orb_false_r.
  - now rewrite IH, record_flag, orb_assoc.
Qed.

(** *** The organization guesses *)

Lemma filter_filter {A : Type} (f g : A -> bool) (l : list A) :
  filter f (filter g l) = filter (fun y => g y && f y) l.
Proof.
  induction l as [|x l IH]; simpl; [reflexivity|].
  destruct (g x); simpl; [destruct (f x)|]; now rewrite IH.
Qed.

Lemma mem_app_one (y x : string) (seen : list string) :
  PyStr.mem y (seen ++ [x]) = PyStr.mem y seen || String.eqb y x.
Proof.
  unfold PyStr.mem. rewrite existsb_app. simpl. now rewrite orb_false_r.
Qed.

Lemma add_new_first_seen (xs seen : list string) :
  fold_left add_new xs seen = (seen ++ filter (unseen seen) (first_seen xs))%list.
Proof.
  revert seen. induction xs as [|x xs IH]; intros seen; simpl.
  - now rewrite app_nil_r.
  - rewrite IH, filter_filter. unfold add_new, unseen at 2.
    destruct (PyStr.mem x seen) eqn:Hx; simpl.
    + f_equal. apply filter_ext. intros y. unfold unseen.
      destruct (String.eqb_spec y x) as [->|_]; simpl; [now rewrite Hx|].
      now destruct (negb _).
    + rewrite <- app_assoc. simpl. do 2 f_equal.
      apply filter_ext. intros y. unfold unseen. rewrite mem_app_one, negb_orb.
      apply andb_comm.
Qed.

Lemma record_companies (a : acc) (au : Author) :
  company_affiliations_list (record a au) =
  fold_left add_new (guess_of au) (company_affiliations_list a).
Proof.
  unfold record, record_email, record_author, guess_of, add_new.
  destruct (is_non_academic _ _) as [[|] [c|]]; simpl.
  - destruct (PyStr.truthy c); simpl.
    + destruct (PyStr.mem c _); simpl; now destruct (_ && _).
    + now destruct (_ && _).
  - now destruct (_ && _).
  - now destruct (_ && _).
  - now destruct (_ && _).
Qed.

Lemma fold_record_companies (l : list Author) (a : acc) :
  company_affiliations_list (fold_left record l a) =
  fold_left add_new (flat_map guess_of l) (company_affiliations_list a).
Proof.
  revert a. induction l as [|au l IH]; simpl; intros a; [reflexivity|].
  now rewrite IH, record_companies, fold_left_app.
Qed.

Lemma first_seen_In (l : list string) (x : string) :
  In x (first_seen l) <-> In x l.
Proof.
  induction l as [|y l IH]; simpl; [tauto|].
  rewrite filter_In, IH.
  destruct (String.eqb_spec x y) as [->|Hne]; simpl.
  - tauto.
  - split; [tauto|]. intros [->|H]; [contradiction|tauto].
Qed.

Lemma first_seen_NoDup (l : list string) : NoDup (first_seen l).
Proof.
  induction l as [|y l IH]; simpl; constructor.
  - rewrite filter_In. intros [_ H]. now rewrite String.eqb_refl in H.
  - now apply NoDup_filter.
Qed.

(** *** The corresponding email *)

Lemma email_ok_truthy (e : option string) :
  email_ok e -> opt_truthy e = match e with Some _ => true | None => false end.
Proof.
  destruct e as [[|c x]|]; simpl; trivial.
  intros H. now specialize (H _ eq_refl).
Qed.

Lemma record_corresponding (a : acc) (au : Author) :
  email_ok (corresponding_author_email a) ->
  email_ok (author_email au) ->
  corresponding_author_email (record a au) =
  match corresponding_author_email a with
  | Some e => Some e
  | None => author_email au
  end.
Proof.
  intros Ha He. unfold record, record_email.
  assert (Hc : corresponding_author_email (record_author a au)
               = corresponding_author_email a).
  { unfold record_author. now destruct (is_non_academic _ _) as [[|] c]. }
  rewrite Hc, (email_ok_truthy _ He), (email_ok_truthy _ Ha).
  destruct (author_email au) as [e|], (corresponding_author_email a) as [e'|] eqn:E;
    simpl; congruence.
Qed.

Lemma fold_record_corresponding (l : list Author) (a : acc) :
  Forall (fun au => email_ok (author_email au)) l ->
  email_ok (corresponding_author_email a) ->
  corresponding_author_email (fold_left record l a) =
  match corresponding_author_email a with
  | Some e => Some e
  | None => first_email l
  end.
Proof.
  intros Hl. revert a. induction Hl as [|au l He _ IH]; simpl; intros a Ha.
  - now destruct (corresponding_author_email a).
  - pose proof (record_corresponding _ _ Ha He) as Hr.
    rewrite IH, Hr.
    + destruct (corresponding_author_email a); [reflexivity|].
      unfold first_email, email_of at 2. simpl. now destruct (author_email au).
    + rewrite Hr. now destruct (corresponding_author_email a).
Qed.

(** ** One paper *)

Lemma process_paper_inv (paper : pyval) (r : option PaperSummary) :
  process_paper paper = Ok r ->
  exists h, paper_header paper = Ok h /\
            r = summary_of h (fold_left record (normalized (h_authors h)) acc0).
Proof.
  unfold process_paper.
  destruct (paper_header paper) as [h|]; simpl; [|discriminate].
  destruct (for_each author_step (h_authors h) acc0) as [a|] eqn:Ha;
    simpl; [|discriminate].
  intros [= <-]. exists h. split; [reflexivity|].
  now rewrite (author_loop_normalized _ _ _ Ha).
Qed.

Lemma summary_of_flag (h : header) (a : acc) :
  (exists s, summary_of h a = Some s) <-> has_non_academic_author a = true.
Proof.
  unfold summary_of. destruct (has_non_academic_author a).
  - split; [trivial|]. intros _. eexists. reflexivity.
  - split; [intros [s [=]]|discriminate].
Qed.

Lemma process_paper_emits (paper : pyval) :
  (exists s, process_paper paper = Ok (Some s)) <->
  is_ok (process_paper paper) = true /\ has_non_academic paper = true.
Proof.
  unfold has_non_academic, paper_authors. split.
  - intros [s Hs]. rewrite Hs. split; [reflexivity|].
    destruct (process_paper_inv _ _ Hs) as (h & -> & Hr).
    assert (Hf : exists s', summary_of h
                   (fold_left record (normalized (h_authors h)) acc0) = Some s')
      by (exists s; now symmetry).
    apply summary_of_flag in Hf. now rewrite fold_record_flag in Hf.
  - intros [Hok Hna]. destruct (process_paper paper) as [r|] eqn:Hp; [|discriminate].
    destruct (process_paper_inv _ _ Hp) as (h & Hh & ->). rewrite Hh in Hna.
    destruct (proj2 (summary_of_flag h
                (fold_left record (normalized (h_authors h)) acc0))) as [s Hs].
    + now rewrite fold_record_flag.
    + exists s. now rewrite Hs.
Qed.

(** ** The list of papers *)

Lemma papers_loop_results (debug : bool) (papers : list pyval)
    (results rs : list PaperSummary) (log log' : list log_entry) :
  papers_loop debug papers results log = (log', Ok rs) ->
  rs = (results ++ flat_map emitted papers)%list.
Proof.
  revert results log. induction papers as [|p ps IH]; simpl; intros results log.
  - intros [= _ <-]. now rewrite app_nil_r.
  - unfold emitted at 1.
    destruct (process_paper p) as [[row|]|e]; simpl.
    + intros H. rewrite (IH _ _ H), <- app_assoc. reflexivity.
    + apply IH.
    + destruct (pmid_for_error p); [apply IH|discriminate].
Qed.

Lemma papers_loop_returns (debug : bool) (papers : list pyval)
    (results : list PaperSummary) (log : list log_entry) :
  forallb handler_safe papers = true ->
  exists log',
    papers_loop debug papers results log
    = (log', Ok (results ++ flat_map emitted papers)%list).
Proof.
  revert results log. induction papers as [|p ps IH]; simpl; intros results log.
  - intros _. exists log. now rewrite app_nil_r.
  - intros [Hp Hps]%andb_true_iff. unfold handler_safe in Hp. unfold emitted at 1.
    destruct (process_paper p) as [[row|]|e]; simpl.
    + destruct (IH (results ++ [row])%list log Hps) as [log' ->].
      exists log'. now rewrite <- app_assoc.
    + apply IH, Hps.
    + destruct (pmid_for_error p); [apply IH, Hps|discriminate].
Qed.

Lemma process_papers_results (debug : bool) (papers : list pyval)
    (results : list PaperSummary) (log : list log_entry) :
  process_papers debug papers = (log, Ok results) ->
  results = flat_map emitted papers.
Proof.
  unfold process_papers.
  destruct (papers_loop debug papers [] _) as [l [rs|e]] eqn:H; [|discriminate].
  intros [= _ <-]. exact (papers_loop_results _ _ _ _ _ _ H).
Qed.

Lemma process_papers_returns (debug : bool) (papers : list pyval) :
  forallb handler_safe papers = true ->
  exists log, process_papers debug papers = (log, Ok (flat_map emitted papers)).
Proof.
  intros H. unfold process_papers.
  destruct (papers_loop_returns debug papers []
              [InfoProcessing (List.length papers)] H) as [l ->].
  simpl. eexists. reflexivity.
Qed.

Lemma emitted_In (paper : pyval) (s : PaperSummary) :
  In s (emitted paper) <-> process_paper paper = Ok (Some s).
Proof.
  unfold emitted. destruct (process_paper paper) as [[row|]|e]; simpl.
  - split; [now intros [->|[]]|]. intros [= ->]. now left.
  - split; [contradiction|discriminate].
  - split; [contradiction|discriminate].
Qed.

(** ** Batches *)

Lemma range_batches_lt (i n : nat) :
  i < n -> range_batches i n = i :: range_batches (i + batch_size) n.
Proof.
  intros H. rewrite range_batches_equation_1. simpl.
  destruct (lt_dec i n); [reflexivity|contradiction].
Qed.

Lemma range_batches_ge (i n : nat) : n <= i -> range_batches i n = [].
Proof.
  intros H. rewrite range_batches_equation_1. simpl.
  destruct (lt_dec i n); [lia|reflexivity].
Qed.

Lemma chunks_cons {A : Type} (x : A) (l : list A) :
  chunks (x :: l) = firstn batch_size (x :: l) :: chunks (skipn batch_size (x :: l)).
Proof. now rewrite chunks_equation_2. Qed.

(** Induction on a list, by whole batches. *)
Lemma chunks_ind {A : Type} (P : list A -> Prop) :
  P [] ->
  (forall x l, P (skipn batch_size (x :: l)) -> P (x :: l)) ->
  forall l, P l.
Proof.
  intros Hnil Hcons l.
  induction l as [l IH] using (induction_ltof1 _ (@List.length A)).
  destruct l as [|x l]; [exact Hnil|].
  apply Hcons, IH. unfold ltof.
  change (List.length (skipn 99 l) < S (List.length l)).
  rewrite length_skipn. lia.
Qed.




Lemma slices_chunks {A : Type} (l : list A) (i : nat) :
  map (fun j => py_slice l j (j + batch_size)) (range_batches i (List.length l))
  = chunks (skipn i l).
Proof.
  remember (List.length l - i) as k eqn:Hk. revert i Hk.
  induction k as [k IH] using lt_wf_ind. intros i Hk.
  destruct (le_lt_dec (List.length l) i) as [Hge|Hlt].
  - rewrite (range_batches_ge _ _ Hge), skipn_all2 by exact Hge. reflexivity.
  - rewrite (range_batches_lt _ _ Hlt). cbn [map].
    rewrite (IH (List.length l - (i + batch_size)))
      by (unfold batch_size; lia).
    destruct (skipn i l) as [|x r] eqn:Hs.
    + apply (f_equal (@List.length A)) in Hs. rewrite length_skipn in Hs.
      simpl in Hs. lia.
    + rewrite chunks_cons, <- Hs. unfold py_slice.
      replace (i + batch_size - i) with batch_size by lia.
      now rewrite skipn_skipn, (Nat.add_comm batch_size i).
Qed.

Section FetchProperties.

Variable World : Type.
Variable efetch_read : list string -> World -> result pyval * World.



End FetchProperties.

(** ** Shape tolerance *)



(** * Specification properties *)

(** C1, amended: when [process_papers] returns, every summary of the
    output comes from a paper of the input that has an author classified
    non-academic by [is_non_academic], and a paper of the input has a
    summary in the output if and only if its fields are processed without
    an exception and at least one of its authors is classified
    non-academic.  A paper with no such author is never emitted. *)
Theorem emitted_iff_processed_and_non_academic (debug : bool)
    (papers : list pyval) (log : list log_entry) (results : list PaperSummary) :
  process_papers debug papers = (log, Ok results) ->
  (forall s, In s results ->
     exists paper, In paper papers /\ process_paper paper = Ok (Some s)
                   /\ has_non_academic paper = true) /\
  (forall paper, In paper papers ->
     ((exists s, In s results /\ process_paper paper = Ok (Some s)) <->
      is_ok (process_paper paper) = true /\ has_non_academic paper = true)).
Proof.
  intros ->%process_papers_results. split.
  - intros s (paper & Hin & Hs%emitted_In)%in_flat_map.
    exists paper. repeat split; trivial.
    apply (proj1 (process_paper_emits paper)). now exists s.
  - intros paper Hin. rewrite <- process_paper_emits. split.
    + intros (s & _ & Hs). now exists s.
    + intros [s Hs]. exists s. split; [|exact Hs].
      apply in_flat_map. exists paper. split; [exact Hin|now apply emitted_In].
Qed.

Lemma emitted_iff_processed_and_non_academic_witness :
  (forall s, In s [industry_summary] ->
     exists paper, In paper [academic_paper; industry_paper; broken_paper]
                   /\ process_paper paper = Ok (Some s)
                   /\ has_non_academic paper = true) /\
  (forall paper, In paper [academic_paper; industry_paper; broken_paper] ->
     ((exists s, In s [industry_summary] /\ process_paper paper = Ok (Some s)) <->
      is_ok (process_paper paper) = true /\ has_non_academic paper = true)).
Proof.
  apply (emitted_iff_processed_and_non_academic false
           [academic_paper; industry_paper; broken_paper]
           [InfoProcessing 3; WarnCouldNotProcess (PStr "3") TypeError; InfoFinished 1]).
  vm_compute. reflexivity.
Defined.

(** C1 without the amendment fails: [broken_paper] has an author classified
    non-academic, its second author cannot be read, and the paper is
    dropped from the output. *)
Lemma non_academic_paper_not_emitted :
  has_non_academic broken_paper = true /\
  process_papers false [broken_paper]
  = ([InfoProcessing 1; WarnCouldNotProcess (PStr "3") TypeError; InfoFinished 0],
     Ok []).
Proof. split; vm_compute; reflexivity. Qed.

(** C2: [is_non_academic] is extensionally the one-test classifier of the
    specification: the verdict is true exactly when the lower-cased
    affiliation contains a company keyword, the guess is then the trimmed
    text before the first comma of the original affiliation, and the email
    never changes the outcome. *)
Theorem is_non_academic_refines_reference (affiliation : string)
    (email : option string) :
  is_non_academic affiliation email = Reference.classify affiliation.
Proof.
  unfold is_non_academic, Reference.classify, Reference.has_company_keyword.
  rewrite lower_empty_guard, keyword_loop_existsb.
  unfold company_name_of. rewrite split_on_hd.
  destruct (existsb _ COMPANY_KEYWORDS); [reflexivity|].
  destruct (opt_truthy email); [|reflexivity].
  now destruct (negb _).
Qed.

(** C3, where the code departs from it: an author with an email in each of two
    affiliation fields keeps the email of the later field; the inner
    [break] leaves the loop over the words only. *)
Theorem later_affiliation_email_replaces_earlier :
  normalize_author two_field_author
  = Ok (mkAuthor "Cy Poe"
          "Dept. of Biology, Uni X. cy@x.edu; Acme Inc, Boston (cy.poe@acme.com)."
          (Some "cy.poe@acme.com")).
Proof. vm_compute. reflexivity. Qed.

(** C4, where the code departs from it: a record with a year and a day but no
    month gets the date [2020--15], with a doubled separator. *)
Theorem missing_month_leaves_double_separator :
  snd (process_papers false [no_month_paper])
  = Ok [mkSummary (PStr "4") (PStr "A title") "2020--15" "Ann Lee" "Novartis AG" "N/A"].
Proof. vm_compute. reflexivity. Qed.

(** C5: in an emitted summary the corresponding-author email is the first
    email extracted in author order, whatever the classification of its
    author, never replaced by a later one; it is the text [N/A] exactly
    when no author of the paper has an extracted email. *)
Theorem corresponding_email_first_found (paper : pyval) (s : PaperSummary) :
  process_paper paper = Ok (Some s) ->
  Corresponding_Author_Email s
  = hd "N/A" (flat_map email_of (normalized (paper_authors paper))) /\
  (Corresponding_Author_Email s = "N/A" <->
   flat_map email_of (normalized (paper_authors paper)) = []).
Proof.
  intros Hs. destruct (process_paper_inv _ _ Hs) as (h & Hh & Hr).
  unfold paper_authors. rewrite Hh.
  pose proof (normalized_emails_ok (h_authors h)) as Hok.
  pose proof (fold_record_corresponding _ acc0 Hok) as Hc.
  specialize (Hc ltac:(intros x [=])). cbn [acc0 corresponding_author_email] in Hc.
  unfold summary_of in Hr.
  destruct (has_non_academic_author _); [|discriminate].
  injection Hr as ->. cbn [Corresponding_Author_Email]. rewrite Hc.
  unfold first_email.
  destruct (flat_map email_of (normalized (h_authors h))) as [|e es] eqn:He.
  - simpl. split; [reflexivity|]. now split.
  - assert (Hat : PyStr.contains "@" e = true).
    { assert (Hin : In e (flat_map email_of (normalized (h_authors h))))
        by (rewrite He; now left).
      apply in_flat_map in Hin. destruct Hin as (au & Hau & Hin).
      rewrite Forall_forall in Hok. specialize (Hok au Hau).
      unfold email_of in Hin. destruct (author_email au) as [x|]; [|contradiction].
      destruct Hin as [->|[]]. now apply Hok. }
    assert (Ht : PyStr.truthy e = true) by (now destruct e).
    simpl. rewrite Ht. split; [reflexivity|].
    split; [|discriminate]. intros ->. discriminate Hat.
Qed.

Lemma corresponding_email_first_found_witness :
  "cy.poe@acme.com"
  = hd "N/A" (flat_map email_of (normalized (paper_authors two_field_paper))) /\
  ("cy.poe@acme.com" = "N/A" <->
   flat_map email_of (normalized (paper_authors two_field_paper)) = []).
Proof.
  apply (corresponding_email_first_found two_field_paper
           (mkSummary (PStr "5") (PStr "A title") "2019" "Cy Poe; Ann Lee"
              "Dept. of Biology; Novartis AG" "cy.poe@acme.com")).
  vm_compute. reflexivity.
Defined.

(** C7, where the code departs from it: when [MedlineCitation] is not a
    mapping, the handler's own lookup of the identifier raises; the
    exception leaves [process_papers] and the papers after it are not
    processed. *)
Theorem handler_exception_escapes (debug : bool) :
  process_papers debug [text_citation_paper; industry_paper]
  = ([InfoProcessing 2], Raise AttributeError).
Proof. destruct debug; vm_compute; reflexivity. Qed.

(** C8: in an emitted summary the company field joins a list without
    duplicates: the non-empty organization guesses of the paper's
    non-academic authors, each at the place where it is first seen. *)
Theorem company_affiliations_first_seen (paper : pyval) (s : PaperSummary) :
  process_paper paper = Ok (Some s) ->
  Company_Affiliations s
  = PyStr.join "; " (first_seen (flat_map guess_of (normalized (paper_authors paper))))
  /\ NoDup (first_seen (flat_map guess_of (normalized (paper_authors paper))))
  /\ (forall c,
        In c (first_seen (flat_map guess_of (normalized (paper_authors paper))))
        <-> In c (flat_map guess_of (normalized (paper_authors paper)))).
Proof.
  intros Hs. destruct (process_paper_inv _ _ Hs) as (h & Hh & Hr).
  unfold paper_authors. rewrite Hh. split; [|split].
  - unfold summary_of in Hr.
    destruct (has_non_academic_author _); [|discriminate].
    injection Hr as ->. cbn [Company_Affiliations].
    rewrite fold_record_companies, add_new_first_seen. cbn [acc0 company_affiliations_list app].
    f_equal. rewrite <- (filter_ext (fun _ => true)) by reflexivity.
    induction (first_seen _) as [|x l IH]; simpl; [reflexivity|now rewrite IH].
  - apply first_seen_NoDup.
  - intros c. apply first_seen_In.
Qed.

Lemma company_affiliations_first_seen_witness :
  "Novartis AG"
  = PyStr.join "; "
      (first_seen (flat_map guess_of (normalized (paper_authors industry_paper))))
  /\ NoDup (first_seen (flat_map guess_of (normalized (paper_authors industry_paper))))
  /\ (forall c,
        In c (first_seen (flat_map guess_of (normalized (paper_authors industry_paper))))
        <-> In c (flat_map guess_of (normalized (paper_authors industry_paper)))).
Proof.
  apply (company_affiliations_first_seen industry_paper industry_summary).
  vm_compute. reflexivity.
Defined.


(** C10: the output of [process_papers] is the input list taken in order,
    each record replaced by the at most one summary it gives; the function
    returns it whenever the handler can read the identifier of every
    record. *)
Theorem process_papers_order_preserving (debug : bool) (papers : list pyval) :
  (forall paper, List.length (emitted paper) <= 1) /\
  (forall log results,
     process_papers debug papers = (log, Ok results) ->
     results = flat_map emitted papers) /\
  (forallb handler_safe papers = true ->
   exists log, process_papers debug papers = (log, Ok (flat_map emitted papers))).
Proof.
  repeat split.
  - intros paper. unfold emitted.
    destruct (process_paper paper) as [[row|]|e]; simpl; lia.
  - intros log results. apply process_papers_results.
  - apply process_papers_returns.
Qed.

Lemma process_papers_order_preserving_witness :
  [industry_summary]
  = flat_map emitted [academic_paper; industry_paper; broken_paper].
Proof.
  apply (proj1 (proj2 (process_papers_order_preserving false
                         [academic_paper; industry_paper; broken_paper]))
           [InfoProcessing 3; WarnCouldNotProcess (PStr "3") TypeError; InfoFinished 1]).
  vm_compute. reflexivity.
Defined.


(** 250 identifiers, the second of the three batches fails: the records of
    the first and of the third batch are returned, in that order. *)
Example fetch_250_second_batch_fails :
  let st := fetch_paper_details nat second_call_fails (sample_ids 250) 0 in
  papers_data st
  = (map PStr (firstn 100 (sample_ids 250)) ++ map PStr (skipn 200 (sample_ids 250)))%list
  /\ fetch_log st
     = [InfoFetching 250; InfoFetchedBatch 1; ErrorFetchingBatch 2 TypeError;
        InfoFetchedBatch 3; InfoFetched 150]
  /\ world st = 3.
Proof. vm_compute. repeat split. Qed.

(** * Further properties *)

(** ** Text *)

Lemma lower_app (a b : string) :
  PyStr.lower (a ++ b) = PyStr.lower a ++ PyStr.lower b.
Proof. induction a as [|c a IH]; simpl; [reflexivity|now rewrite IH]. Qed.

Lemma prefix_empty (s : string) : String.prefix EmptyString s = true.
Proof. now destruct s. Qed.

Lemma prefix_app (k b c : string) :
  String.prefix k b = true -> String.prefix k (b ++ c) = true.
Proof.
  revert b. induction k as [|x k IH]; intros b H; [apply prefix_empty|].
  destruct b as [|y b]; [discriminate H|].
  cbn [String.prefix append] in *.
  destruct (ascii_dec x y); [now apply IH|discriminate H].
Qed.

Lemma prefix_of_empty (k : string) :
  String.prefix k EmptyString = true -> k = EmptyString.
Proof. now destruct k. Qed.

Lemma contains_app_r (k b c : string) :
  PyStr.contains k b = true -> PyStr.contains k (b ++ c) = true.
Proof.
  induction b as [|y b IH]; intros H.
  - cbn [PyStr.contains] in H. rewrite orb_false_r in H.
    apply prefix_of_empty in H. subst k.
    destruct c; reflexivity.
  - cbn [PyStr.contains append] in *. apply orb_true_iff in H.
    apply orb_true_iff. destruct H as [H|H].
    + left. exact (prefix_app k (String y b) c H).
    + right. now apply IH.
Qed.

Lemma contains_app_l (k a b : string) :
  PyStr.contains k b = true -> PyStr.contains k (a ++ b) = true.
Proof.
  intros H. induction a as [|x a IH]; [exact H|].
  cbn [PyStr.contains append]. rewrite IH. apply orb_true_r.
Qed.

Lemma lstrip_split (p : ascii -> bool) (s : string) :
  exists pre, s = pre ++ PyStr.lstrip_by p s.
Proof.
  induction s as [|c s [pre IH]]; [now exists EmptyString|].
  cbn [PyStr.lstrip_by]. destruct (p c).
  - exists (String c pre). simpl. now rewrite <- IH.
  - now exists EmptyString.
Qed.

Lemma rstrip_split (p : ascii -> bool) (s : string) :
  exists post, s = PyStr.rstrip_by p s ++ post.
Proof.
  induction s as [|c s [post IH]]; [now exists EmptyString|].
  cbn [PyStr.rstrip_by]. destruct (PyStr.rstrip_by p s) as [|d r] eqn:Hr.
  - destruct (p c).
    + exists (String c s). reflexivity.
    + exists s. reflexivity.
  - exists post. simpl. now rewrite IH.
Qed.

Lemma lstrip_first (p : ascii -> bool) (s : string) :
  char_is p (first_char (PyStr.lstrip_by p s)) = false.
Proof.
  induction s as [|c s IH]; [reflexivity|].
  cbn [PyStr.lstrip_by]. destruct (p c) eqn:Hc; [exact IH|exact Hc].
Qed.

Lemma rstrip_first (p : ascii -> bool) (s : string) :
  char_is p (first_char s) = false ->
  char_is p (first_char (PyStr.rstrip_by p s)) = false.
Proof.
  destruct s as [|c s]; [trivial|]. cbn [PyStr.rstrip_by first_char char_is].
  intros Hc. destruct (PyStr.rstrip_by p s); [rewrite Hc|]; exact Hc.
Qed.

Lemma rstrip_last (p : ascii -> bool) (s : string) :
  char_is p (last_char (PyStr.rstrip_by p s)) = false.
Proof.
  induction s as [|c s IH]; [reflexivity|].
  cbn [PyStr.rstrip_by]. destruct (PyStr.rstrip_by p s) as [|d r] eqn:Hr.
  - destruct (p c) eqn:Hc; [reflexivity|exact Hc].
  - exact IH.
Qed.

Lemma strip_by_clean (p : ascii -> bool) (s : string) :
  clean_ends p (PyStr.strip_by p s) = true.
Proof.
  unfold clean_ends, PyStr.strip_by.
  now rewrite (rstrip_first p _ (lstrip_first p s)), rstrip_last.
Qed.

Lemma lstrip_noop (p : ascii -> bool) (s : string) :
  char_is p (first_char s) = false -> PyStr.lstrip_by p s = s.
Proof. destruct s as [|c s]; [trivial|]. simpl. now intros ->. Qed.

Lemma rstrip_noop (p : ascii -> bool) (s : string) :
  char_is p (last_char s) = false -> PyStr.rstrip_by p s = s.
Proof.
  induction s as [|c s IH]; [trivial|].
  cbn [last_char PyStr.rstrip_by]. destruct s as [|d r].
  - simpl. now intros ->.
  - intros H. now rewrite (IH H).
Qed.

Lemma strip_by_noop (p : ascii -> bool) (s : string) :
  clean_ends p s = true -> PyStr.strip_by p s = s.
Proof.
  unfold clean_ends, PyStr.strip_by.
  intros [H1 H2]%andb_true_iff. apply negb_true_iff in H1, H2.
  now rewrite (lstrip_noop p s H1), (rstrip_noop p s H2).
Qed.

Lemma any_char_app (q : ascii -> bool) (a b : string) :
  any_char q (a ++ b) = any_char q a || any_char q b.
Proof.
  induction a as [|c a IH]; simpl; [reflexivity|]. now rewrite IH, orb_assoc.
Qed.

Lemma strip_by_any_char (p q : ascii -> bool) (s : string) :
  any_char q s = false -> any_char q (PyStr.strip_by p s) = false.
Proof.
  unfold PyStr.strip_by. intros H.
  destruct (lstrip_split p s) as [pre Hpre].
  destruct (rstrip_split p (PyStr.lstrip_by p s)) as [post Hpost].
  rewrite Hpre, Hpost, !any_char_app in H.
  apply orb_false_iff in H. destruct H as [_ H].
  apply orb_false_iff in H. tauto.
Qed.

Lemma string_app_assoc (a b c : string) : (a ++ b) ++ c = a ++ b ++ c.
Proof. induction a as [|x a IH]; simpl; [reflexivity|now rewrite IH]. Qed.

Lemma before_first_comma_split (s : string) :
  exists rest, s = Reference.before_first_comma s ++ rest.
Proof.
  induction s as [|c s [rest IH]]; [now exists EmptyString|].
  cbn [Reference.before_first_comma]. destruct (Ascii.eqb c ",").
  - now exists (String c s).
  - exists rest. simpl. now rewrite <- IH.
Qed.

Lemma before_first_comma_free (s : string) :
  any_char (Ascii.eqb ",") (Reference.before_first_comma s) = false.
Proof.
  induction s as [|c s IH]; [reflexivity|].
  cbn [Reference.before_first_comma]. destruct (Ascii.eqb c ",") eqn:Hc; [reflexivity|].
  cbn [any_char]. rewrite IH, Ascii.eqb_sym, Hc. reflexivity.
Qed.

(** ** The classifier *)

Lemma is_non_academic_unfold (affiliation : string) (email : option string) :
  is_non_academic affiliation email =
  if Reference.has_company_keyword affiliation
  then (true, Some (PyStr.strip (Reference.before_first_comma affiliation)))
  else (false, None).
Proof.
  unfold is_non_academic, Reference.has_company_keyword.
  rewrite lower_empty_guard, keyword_loop_existsb.
  unfold company_name_of. rewrite split_on_hd.
  destruct (existsb _ COMPANY_KEYWORDS); [reflexivity|].
  destruct (opt_truthy email); [|reflexivity].
  now destruct (negb _).
Qed.

Lemma is_non_academic_verdict (affiliation : string) (email : option string) :
  fst (is_non_academic affiliation email) = Reference.has_company_keyword affiliation.
Proof.
  rewrite is_non_academic_unfold. now destruct (Reference.has_company_keyword _).
Qed.

(** X1: the verdict looks at the affiliation through [lower] only: two
    affiliations with the same lower-cased text get the same verdict,
    whatever the emails. *)
Theorem verdict_case_insensitive (a b : string) (email email' : option string) :
  PyStr.lower a = PyStr.lower b ->
  fst (is_non_academic a email) = fst (is_non_academic b email').
Proof.
  intros H. rewrite !is_non_academic_verdict.
  unfold Reference.has_company_keyword. now rewrite H.
Qed.

Lemma verdict_case_insensitive_witness :
  fst (is_non_academic "NOVARTIS PHARMA, Basel" None)
  = fst (is_non_academic "Novartis Pharma, BASEL" (Some "a@b.org")).
Proof.
  apply (verdict_case_insensitive "NOVARTIS PHARMA, Basel" "Novartis Pharma, BASEL").
  vm_compute. reflexivity.
Defined.

(** X2: matching is plain substring containment, without word boundaries:
    an affiliation classified non-academic stays so when any text is put
    before and after it. *)
Theorem verdict_survives_embedding (pre affiliation post : string)
    (email email' : option string) :
  fst (is_non_academic affiliation email) = true ->
  fst (is_non_academic (pre ++ affiliation ++ post) email') = true.
Proof.
  rewrite !is_non_academic_verdict. unfold Reference.has_company_keyword.
  rewrite !existsb_exists. intros (k & Hk & Hc). exists k. split; [exact Hk|].
  rewrite !lower_app. now apply contains_app_l, contains_app_r.
Qed.

Lemma verdict_survives_embedding_witness :
  fst (is_non_academic ("Dept. of Imaging, Chic" ++ "ag" ++ "o General Hospital")
         (Some "x@uni.edu")) = true.
Proof.
  apply (verdict_survives_embedding "Dept. of Imaging, Chic" "ag" "o General Hospital" None).
  vm_compute. reflexivity.
Defined.

(** X3: the organization guess comes with the verdict and only with it;
    when present it holds no comma, has no white space at either end, and
    is a contiguous part of the affiliation as given. *)
Theorem guess_shape (affiliation : string) (email : option string) :
  match is_non_academic affiliation email with
  | (true, Some c) =>
      any_char (Ascii.eqb ",") c = false /\
      clean_ends PyStr.is_space c = true /\
      exists pre post, affiliation = pre ++ c ++ post
  | (false, None) => True
  | _ => False
  end.
Proof.
  rewrite is_non_academic_unfold.
  destruct (Reference.has_company_keyword affiliation); [|exact I].
  split; [|split].
  - apply strip_by_any_char, before_first_comma_free.
  - apply strip_by_clean.
  - unfold PyStr.strip, PyStr.strip_by.
    pose proof (before_first_comma_split affiliation) as [rest Hrest].
    remember (Reference.before_first_comma affiliation) as b eqn:Eb.
    pose proof (lstrip_split PyStr.is_space b) as [pre Hpre].
    remember (PyStr.lstrip_by PyStr.is_space b) as l eqn:El.
    pose proof (rstrip_split PyStr.is_space l) as [post Hpost].
    remember (PyStr.rstrip_by PyStr.is_space l) as r eqn:Er.
    exists pre, (post ++ rest).
    rewrite Hrest, Hpre, Hpost, !string_app_assoc. reflexivity.
Qed.

(** ** One author *)

Lemma affil_step_texts (st st' : list pyval * option string) (affil : pyval) :
  affil_step st affil = Ok st' ->
  fst st' = (fst st ++ raw_texts [affil])%list.
Proof.
  destruct st as [texts e]. unfold affil_step, raw_texts. cbn [flat_map fst].
  destruct affil as [|s|l|d]; cbn [is_dict];
    try (intros [= <-]; now rewrite app_nil_r).
  cbn [py_get bind]. fold (field d "Affiliation" (PStr "")).
  destruct (at_in (field d "Affiliation" (PStr ""))) as [[|]|]; cbn [bind];
    try discriminate.
  - destruct (py_split _); cbn [bind]; [|discriminate].
    intros [= <-]. now rewrite app_nil_r.
  - intros [= <-]. now rewrite app_nil_r.
Qed.

Lemma affil_step_raise (st : list pyval * option string) (affil : pyval)
    (e : pyexc) :
  affil_step st affil = Raise e -> affil_readable affil = false.
Proof.
  destruct st as [texts em]. unfold affil_step, affil_readable.
  destruct affil as [|s|l|d]; cbn [is_dict]; try discriminate.
  cbn [py_get bind]. fold (field d "Affiliation" (PStr "")).
  destruct (field d "Affiliation" (PStr "")) as [|s|l|d']; cbn [at_in bind];
    trivial.
  destruct (PyStr.contains "@" s); discriminate.
Qed.

Lemma raw_texts_cons (x : pyval) (l : list pyval) :
  raw_texts (x :: l) = (raw_texts [x] ++ raw_texts l)%list.
Proof. unfold raw_texts. cbn [flat_map]. now rewrite app_nil_r. Qed.

Lemma affil_loop_texts (l : list pyval) (st st' : list pyval * option string) :
  for_each affil_step l st = Ok st' ->
  fst st' = (fst st ++ raw_texts l)%list.
Proof.
  revert st. induction l as [|x l IH]; intros st; cbn [for_each].
  - intros [= <-]. now rewrite app_nil_r.
  - destruct (affil_step st x) as [st1|] eqn:H1; cbn [bind]; [|discriminate].
    intros H. rewrite (IH _ H), (affil_step_texts _ _ _ H1), (raw_texts_cons x l).
    now rewrite <- app_assoc.
Qed.

Lemma affil_loop_raise (l : list pyval) (st : list pyval * option string)
    (e : pyexc) :
  for_each affil_step l st = Raise e -> forallb affil_readable l = false.
Proof.
  revert st. induction l as [|x l IH]; intros st; cbn [for_each forallb];
    [discriminate|].
  destruct (affil_step st x) as [st1|e1] eqn:H1; cbn [bind].
  - intros H. rewrite (IH _ H). apply andb_false_r.
  - intros _. now rewrite (affil_step_raise _ _ _ H1).
Qed.

Lemma texts_of_raw (l : list pyval) :
  texts_of (raw_texts l) =
  if forallb affil_readable l then Ok (affiliation_texts l) else Raise TypeError.
Proof.
  unfold affiliation_texts.
  induction l as [|x l IH]; [reflexivity|].
  rewrite raw_texts_cons. cbn [forallb]. unfold raw_texts at 1 3, affil_readable at 1.
  cbn [flat_map app]. destruct x as [|s|l0|d]; cbn [app]; try exact IH.
  destruct (field d "Affiliation" (PStr "")) as [|s|l0|d']; cbn [texts_of andb];
    try reflexivity.
  rewrite IH. fold (raw_texts l).
  destruct (forallb affil_readable l); reflexivity.
Qed.

(** X4: an author entry is read without an exception exactly when no
    mapping of its affiliation info has an [Affiliation] that is not a
    text; the author's affiliation text is then the affiliation texts of
    the mapping entries, in order, joined by a semicolon and a space (a
    mapping without the key counts as the empty text). *)
Theorem normalize_author_readable (d : list (string * pyval)) :
  is_ok (normalize_author (PDict d))
  = forallb affil_readable (as_list (field d "AffiliationInfo" (PList []))) /\
  (forall au, normalize_author (PDict d) = Ok au ->
     author_affiliation au
     = PyStr.join "; "
         (affiliation_texts (as_list (field d "AffiliationInfo" (PList []))))).
Proof.
  unfold normalize_author. cbn [py_get bind].
  fold (field d "AffiliationInfo" (PList [])).
  destruct (as_list (field d "AffiliationInfo" (PList []))) as [|x l] eqn:Hinfo.
  - split; [reflexivity|]. now intros au [= <-].
  - destruct (for_each affil_step (x :: l) ([], None)) as [st|e] eqn:Hloop;
      cbn [bind].
    + apply affil_loop_texts in Hloop. cbn [fst app] in Hloop.
      unfold py_join. rewrite Hloop, texts_of_raw.
      destruct (forallb affil_readable (x :: l)); cbn [bind is_ok].
      * split; [reflexivity|]. now intros au [= <-].
      * split; [reflexivity|discriminate].
    + rewrite (affil_loop_raise _ _ _ Hloop). split; [reflexivity|discriminate].
Qed.

Lemma normalize_author_readable_witness :
  "Uni X; Acme Inc"
  = PyStr.join "; "
      (affiliation_texts
         (as_list
            (field
               [("LastName", PStr "Poe");
                ("AffiliationInfo",
                 PList [PDict [("Affiliation", PStr "Uni X")]; PStr "skipped";
                        PDict [("Affiliation", PStr "Acme Inc")]])]
               "AffiliationInfo" (PList [])))).
Proof.
  apply (proj2 (normalize_author_readable
                  [("LastName", PStr "Poe");
                   ("AffiliationInfo",
                    PList [PDict [("Affiliation", PStr "Uni X")]; PStr "skipped";
                           PDict [("Affiliation", PStr "Acme Inc")]])])
           (mkAuthor "Poe" "Uni X; Acme Inc" None)).
  vm_compute. reflexivity.
Defined.

Lemma normalize_author_name (author : pyval) (au : Author) :
  normalize_author author = Ok au ->
  exists fore_name last_name,
    py_get author "LastName" (PStr "") = Ok last_name /\
    py_get author "ForeName" (PStr "") = Ok fore_name /\
    author_name au = PyStr.strip (py_str fore_name ++ " " ++ py_str last_name).
Proof.
  unfold normalize_author.
  destruct (py_get author "LastName" (PStr "")) as [ln|]; cbn [bind]; [|discriminate].
  destruct (py_get author "ForeName" (PStr "")) as [fn|]; cbn [bind]; [|discriminate].
  destruct (py_get author "AffiliationInfo" (PList [])) as [ai|]; cbn [bind];
    [|discriminate].
  intros H. exists fn, ln. repeat split.
  destruct (as_list ai).
  - now injection H as <-.
  - destruct (for_each affil_step _ _) as [st|]; cbn [bind] in H; [|discriminate].
    destruct (py_join _ _); cbn [bind] in H; [|discriminate].
    now injection H as <-.
Qed.

(** X5: the name of an author has no white space at either end; when the
    entry has no [ForeName], or an empty one, the name is the [LastName]
    without its surrounding white space. *)
Theorem author_name_trimmed (d : list (string * pyval)) (au : Author) :
  normalize_author (PDict d) = Ok au ->
  clean_ends PyStr.is_space (author_name au) = true /\
  (forall last,
     field d "ForeName" (PStr "") = PStr "" ->
     field d "LastName" (PStr "") = PStr last ->
     author_name au = PyStr.strip last).
Proof.
  intros H. destruct (normalize_author_name _ _ H) as (fn & ln & Hl & Hf & ->).
  split; [apply strip_by_clean|].
  cbn [py_get] in Hl, Hf. injection Hl as <-. injection Hf as <-.
  fold (field d "LastName" (PStr "")). fold (field d "ForeName" (PStr "")).
  intros last -> ->. reflexivity.
Qed.

Lemma author_name_trimmed_witness :
  clean_ends PyStr.is_space "Lee" = true /\
  (forall last,
     field [("LastName", PStr " Lee ")] "ForeName" (PStr "") = PStr "" ->
     field [("LastName", PStr " Lee ")] "LastName" (PStr "") = PStr last ->
     "Lee" = PyStr.strip last).
Proof.
  apply (author_name_trimmed [("LastName", PStr " Lee ")] (mkAuthor "Lee" "" None)).
  vm_compute. reflexivity.
Defined.

(** *** The email token *)

Lemma split_words_no_space (s : string) :
  Forall (fun w => any_char PyStr.is_space w = false) (PyStr.split s).
Proof.
  induction s as [|c s IH]; [constructor|].
  cbn [PyStr.split]. destruct (PyStr.is_space c) eqn:Hc; [exact IH|].
  destruct s as [|c' s'].
  - constructor; [|constructor]. cbn [any_char]. now rewrite Hc.
  - destruct (PyStr.is_space c').
    + constructor; [|exact IH]. cbn [any_char]. now rewrite Hc.
    + destruct (PyStr.split (String c' s')) as [|w ws].
      * constructor; [|constructor]. cbn [any_char]. now rewrite Hc.
      * inversion IH as [|? ? Hw Hws]; subst.
        constructor; [|exact Hws]. cbn [any_char]. now rewrite Hc, Hw.
Qed.

Section EmailToken.

(** A property of every token the loop can turn into an email. *)
Variable P : string -> Prop.
Hypothesis P_token :
  forall word,
    PyStr.contains "@" word = true ->
    any_char PyStr.is_space word = false ->
    P (PyStr.strip_chars "().,;" word).

Lemma scan_words_has (words : list string) (e : option string) :
  Forall (fun w => any_char PyStr.is_space w = false) words ->
  (forall x, e = Some x -> P x) ->
  forall x, scan_words words e = Some x -> P x.
Proof.
  intros Hws He. induction Hws as [|w ws Hw _ IH]; cbn [scan_words]; [exact He|].
  destruct (PyStr.contains "@" w) eqn:Hat; [|exact IH].
  intros x [= <-]. now apply P_token.
Qed.

Lemma affil_step_has (st st' : list pyval * option string) (affil : pyval) :
  affil_step st affil = Ok st' ->
  (forall x, snd st = Some x -> P x) -> forall x, snd st' = Some x -> P x.
Proof.
  destruct st as [texts e]. unfold affil_step.
  destruct (is_dict affil); [|now intros [= <-]].
  destruct (py_get affil "Affiliation" (PStr "")) as [t|]; cbn [bind]; [|discriminate].
  destruct (at_in t) as [[|]|]; cbn [bind]; try discriminate.
  - destruct t as [|s|l|d]; cbn [py_split bind]; try discriminate.
    intros [= <-] He. apply scan_words_has; [apply split_words_no_space|exact He].
  - now intros [= <-].
Qed.

Lemma affil_loop_has (l : list pyval) (st st' : list pyval * option string) :
  for_each affil_step l st = Ok st' ->
  (forall x, snd st = Some x -> P x) -> forall x, snd st' = Some x -> P x.
Proof.
  revert st. induction l as [|x l IH]; cbn [for_each]; intros st.
  - now intros [= <-].
  - destruct (affil_step st x) as [st1|] eqn:H1; cbn [bind]; [|discriminate].
    intros H He. apply (IH _ H). exact (affil_step_has _ _ _ H1 He).
Qed.

Lemma normalize_author_email_has (author : pyval) (au : Author) :
  normalize_author author = Ok au ->
  forall x, author_email au = Some x -> P x.
Proof.
  unfold normalize_author.
  destruct (py_get author "LastName" (PStr "")) as [ln|]; cbn [bind]; [|discriminate].
  destruct (py_get author "ForeName" (PStr "")) as [fn|]; cbn [bind]; [|discriminate].
  destruct (py_get author "AffiliationInfo" (PList [])) as [ai|]; cbn [bind];
    [|discriminate].
  destruct (as_list ai) as [|x l] eqn:Hl.
  - intros [= <-]. intros x [=].
  - destruct (for_each affil_step (x :: l) ([], None)) as [st|] eqn:Hst;
      cbn [bind]; [|discriminate].
    destruct (py_join "; " (fst st)); cbn [bind]; [|discriminate].
    intros [= <-]. cbn [author_email]. apply (affil_loop_has _ _ _ Hst).
    intros y [=].
Qed.

End EmailToken.

(** X6: an email extracted for an author holds an [@], holds no white
    space, and neither begins nor ends with one of the characters
    [( ) . , ;]. *)
Theorem author_email_shape (author : pyval) (au : Author) (e : string) :
  normalize_author author = Ok au ->
  author_email au = Some e ->
  PyStr.contains "@" e = true /\
  any_char PyStr.is_space e = false /\
  clean_ends is_email_punctuation e = true.
Proof.
  intros Hn He.
  refine (normalize_author_email_has
            (fun x => PyStr.contains "@" x = true /\
                      any_char PyStr.is_space x = false /\
                      clean_ends is_email_punctuation x = true)
            _ author au Hn e He).
  intros word Hat Hsp. split; [|split].
  - now apply contains_at_strip_chars.
  - now apply strip_by_any_char.
  - exact (strip_by_clean (fun c => PyStr.mem_char c "().,;") word).
Qed.

Lemma author_email_shape_witness :
  PyStr.contains "@" "cy.poe@acme.com" = true /\
  any_char PyStr.is_space "cy.poe@acme.com" = false /\
  clean_ends is_email_punctuation "cy.poe@acme.com" = true.
Proof.
  apply (author_email_shape two_field_author
           (mkAuthor "Cy Poe"
              "Dept. of Biology, Uni X. cy@x.edu; Acme Inc, Boston (cy.poe@acme.com)."
              (Some "cy.poe@acme.com"))).
  - vm_compute. reflexivity.
  - reflexivity.
Defined.

(** ** The list of papers, further *)

Lemma handler_safe_shape (paper : pyval) :
  handler_safe paper =
  match paper with
  | PDict d =>
      match field d "MedlineCitation" (PDict []) with
      | PDict _ => true
      | _ => false
      end
  | _ => false
  end.
Proof.
  unfold handler_safe, pmid_for_error.
  destruct paper as [|s|l|d]; try reflexivity.
  cbn [py_get bind]. fold (field d "MedlineCitation" (PDict [])).
  now destruct (field d "MedlineCitation" (PDict [])).
Qed.

Lemma process_ok_handler_safe (paper : pyval) :
  is_ok (process_paper paper) = true -> handler_safe paper = true.
Proof.
  rewrite handler_safe_shape. unfold process_paper, paper_header.
  destruct paper as [|s|l|d]; try discriminate.
  cbn [py_get bind]. fold (field d "MedlineCitation" (PDict [])).
  now destruct (field d "MedlineCitation" (PDict [])).
Qed.

Lemma papers_loop_ok (debug : bool) (papers : list pyval)
    (results : list PaperSummary) (log : list log_entry) :
  is_ok (snd (papers_loop debug papers results log)) = forallb handler_safe papers.
Proof.
  revert results log. induction papers as [|p ps IH]; intros results log;
    [reflexivity|].
  cbn [papers_loop forallb].
  destruct (process_paper p) as [[row|]|e] eqn:Hp.
  - rewrite IH, process_ok_handler_safe; [reflexivity|now rewrite Hp].
  - rewrite IH, process_ok_handler_safe; [reflexivity|now rewrite Hp].
  - unfold handler_safe at 1. destruct (pmid_for_error p); [apply IH|reflexivity].
Qed.

(** X7: [process_papers] returns normally exactly when every record is a
    mapping whose [MedlineCitation], when present, is a mapping; on any
    other list an exception leaves the function. *)
Theorem process_papers_returns_iff (debug : bool) (papers : list pyval) :
  is_ok (snd (process_papers debug papers)) = forallb handler_safe papers /\
  (forall paper,
     handler_safe paper =
     match paper with
     | PDict d =>
         match field d "MedlineCitation" (PDict []) with
         | PDict _ => true
         | _ => false
         end
     | _ => false
     end).
Proof.
  split; [|exact handler_safe_shape].
  unfold process_papers.
  rewrite <- (papers_loop_ok debug papers [] [InfoProcessing (List.length papers)]).
  now destruct (papers_loop _ _ _ _) as [log [rs|e]].
Qed.

Lemma papers_loop_full (debug : bool) (papers : list pyval)
    (results : list PaperSummary) (log : list log_entry) :
  forallb handler_safe papers = true ->
  papers_loop debug papers results log
  = ((log ++ flat_map (paper_warnings debug) papers)%list,
     Ok (results ++ flat_map emitted papers)%list).
Proof.
  revert results log. induction papers as [|p ps IH]; intros results log.
  - intros _. cbn. now rewrite !app_nil_r.
  - cbn [forallb papers_loop flat_map]. intros [Hp Hps]%andb_true_iff.
    unfold emitted at 1, paper_warnings at 1. unfold handler_safe in Hp.
    destruct (process_paper p) as [[row|]|e].
    + rewrite (IH _ _ Hps), <- app_assoc. reflexivity.
    + now rewrite (IH _ _ Hps).
    + destruct (pmid_for_error p) as [pmid|]; [|discriminate].
      rewrite (IH _ _ Hps), <- app_assoc. reflexivity.
Qed.

(** X8: on a list of records all of which the handler can name, the
    output is known in full: the rows of the records in order, and a log
    that opens with the number of records, holds one warning (followed by
    the detail line in debug mode) for each record whose processing
    raised, in order and with the identifier the handler read, and closes
    with the number of rows. *)
Theorem process_papers_output (debug : bool) (papers : list pyval) :
  forallb handler_safe papers = true ->
  process_papers debug papers
  = ((InfoProcessing (List.length papers)
        :: flat_map (paper_warnings debug) papers
        ++ [InfoFinished (List.length (flat_map emitted papers))])%list,
     Ok (flat_map emitted papers)).
Proof.
  intros H. unfold process_papers. now rewrite (papers_loop_full _ _ _ _ H).
Qed.

Lemma process_papers_output_witness :
  process_papers true [academic_paper; industry_paper; broken_paper]
  = ((InfoProcessing 3
        :: flat_map (paper_warnings true) [academic_paper; industry_paper; broken_paper]
        ++ [InfoFinished
              (List.length
                 (flat_map emitted [academic_paper; industry_paper; broken_paper]))])%list,
     Ok (flat_map emitted [academic_paper; industry_paper; broken_paper])).
Proof.
  apply (process_papers_output true [academic_paper; industry_paper; broken_paper]).
  vm_compute. reflexivity.
Defined.

Lemma papers_loop_snd (debug debug' : bool) (papers : list pyval)
    (results : list PaperSummary) (log log' : list log_entry) :
  snd (papers_loop debug papers results log)
  = snd (papers_loop debug' papers results log').
Proof.
  revert results log log'. induction papers as [|p ps IH]; intros results log log';
    [reflexivity|].
  cbn [papers_loop].
  destruct (process_paper p) as [[row|]|e]; try apply IH.
  destruct (pmid_for_error p); [apply IH|reflexivity].
Qed.

Lemma process_papers_snd (debug : bool) (papers : list pyval) :
  snd (process_papers debug papers)
  = snd (papers_loop debug papers [] []).
Proof.
  unfold process_papers.
  rewrite (papers_loop_snd debug debug papers [] [] [InfoProcessing (List.length papers)]).
  now destruct (papers_loop _ _ _ _) as [log [rs|e]].
Qed.

(** X9: the debug level changes the log only: the rows returned, or the
    exception that leaves the function, are the same with and without it. *)
Theorem debug_changes_log_only (papers : list pyval) :
  snd (process_papers true papers) = snd (process_papers false papers).
Proof. rewrite !process_papers_snd. apply papers_loop_snd. Qed.

Lemma papers_loop_raise_app (debug : bool) (l1 l2 : list pyval)
    (results : list PaperSummary) (log : list log_entry) (e : pyexc) :
  snd (papers_loop debug l1 results log) = Raise e ->
  snd (papers_loop debug (l1 ++ l2) results log) = Raise e.
Proof.
  revert results log. induction l1 as [|p ps IH]; intros results log;
    [discriminate|].
  cbn [papers_loop app].
  destruct (process_paper p) as [[row|]|e']; try apply IH.
  destruct (pmid_for_error p); [apply IH|trivial].
Qed.

(** X10: an exception that leaves [process_papers] on a list leaves it on
    every list that begins with it: the records after the offending one
    are not processed and the rows gathered before it are not returned. *)
Theorem escape_aborts_batch (debug : bool) (l1 l2 : list pyval) (e : pyexc) :
  snd (process_papers debug l1) = Raise e ->
  snd (process_papers debug (l1 ++ l2)) = Raise e.
Proof. rewrite !process_papers_snd. apply papers_loop_raise_app. Qed.

Lemma escape_aborts_batch_witness :
  snd (process_papers false ([industry_paper; text_citation_paper] ++ [industry_paper]))
  = Raise AttributeError.
Proof.
  apply (escape_aborts_batch false [industry_paper; text_citation_paper] [industry_paper]).
  vm_compute. reflexivity.
Defined.

(** *** The names *)

Lemma record_names (a : acc) (au : Author) :
  non_academic_authors_list (record a au) =
  (non_academic_authors_list a
   ++ (if classified_non_academic au then [author_name au] else []))%list.
Proof.
  unfold record, record_email, record_author, classified_non_academic.
  destruct (is_non_academic _ _) as [[|] c]; cbn [fst];
    destruct (_ && _); cbn; now rewrite ?app_nil_r.
Qed.

Lemma fold_record_names (l : list Author) (a : acc) :
  non_academic_authors_list (fold_left record l a) =
  (non_academic_authors_list a
   ++ map author_name (filter classified_non_academic l))%list.
Proof.
  revert a. induction l as [|au l IH]; intros a; cbn [fold_left filter map].
  - now rewrite app_nil_r.
  - rewrite IH, record_names, <- app_assoc.
    now destruct (classified_non_academic au).
Qed.

(** X11: in an emitted summary the author field joins the names of all
    the authors classified non-academic, in author order, a name that
    occurs twice being listed twice; there is at least one. *)
Theorem non_academic_authors_listed (paper : pyval) (s : PaperSummary) :
  process_paper paper = Ok (Some s) ->
  Non_academic_Authors s
  = PyStr.join "; " (non_academic_names (paper_authors paper)) /\
  non_academic_names (paper_authors paper) <> [].
Proof.
  intros Hs. destruct (process_paper_inv _ _ Hs) as (h & Hh & Hr).
  unfold paper_authors, non_academic_names. rewrite Hh.
  unfold summary_of in Hr.
  destruct (has_non_academic_author _) eqn:Hflag; [|discriminate].
  injection Hr as ->. cbn [Non_academic_Authors].
  rewrite fold_record_names. split; [reflexivity|].
  rewrite fold_record_flag in Hflag. cbn in Hflag.
  apply existsb_exists in Hflag. destruct Hflag as (au & Hin & Hau).
  intros Hnil. apply map_eq_nil in Hnil.
  assert (Hf : In au (filter classified_non_academic (normalized (h_authors h))))
    by (apply filter_In; now split).
  now rewrite Hnil in Hf.
Qed.

Lemma non_academic_authors_listed_witness :
  "Cy Poe; Ann Lee"
  = PyStr.join "; " (non_academic_names (paper_authors two_field_paper)) /\
  non_academic_names (paper_authors two_field_paper) <> [].
Proof.
  apply (non_academic_authors_listed two_field_paper
           (mkSummary (PStr "5") (PStr "A title") "2019" "Cy Poe; Ann Lee"
              "Dept. of Biology; Novartis AG" "cy.poe@acme.com")).
  vm_compute. reflexivity.
Defined.

(** X12: a record without a [MedlineCitation] (or with an empty one) whose
    [PubmedData], when present, is a mapping gives no row and raises
    nothing, whatever else it holds; were its processing to be reported,
    the identifier would be the text [UNKNOWN]. *)
Theorem missing_citation_skipped (d : list (string * pyval)) :
  field d "MedlineCitation" (PDict []) = PDict [] ->
  is_dict (field d "PubmedData" (PDict [])) = true ->
  process_paper (PDict d) = Ok None /\
  pmid_for_error (PDict d) = Ok (PStr "UNKNOWN").
Proof.
  intros Hm Hp. unfold process_paper, paper_header, pmid_for_error.
  cbn [py_get bind]. fold (field d "MedlineCitation" (PDict [])).
  fold (field d "PubmedData" (PDict [])). rewrite Hm.
  destruct (field d "PubmedData" (PDict [])); try discriminate Hp.
  split; reflexivity.
Qed.

Lemma missing_citation_skipped_witness :
  process_paper (PDict [("PubmedData", PDict [("History", PList [])])]) = Ok None /\
  pmid_for_error (PDict [("PubmedData", PDict [("History", PList [])])])
  = Ok (PStr "UNKNOWN").
Proof.
  apply (missing_citation_skipped [("PubmedData", PDict [("History", PList [])])]);
    reflexivity.
Defined.

(** ** The publication date *)

Lemma first_char_app (a b : string) :
  PyStr.truthy a = true -> first_char (a ++ b) = first_char a.
Proof. now destruct a. Qed.

Lemma last_char_app (a b : string) :
  PyStr.truthy b = true -> last_char (a ++ b) = last_char b.
Proof.
  intros Hb. induction a as [|x a IH]; [reflexivity|].
  cbn [append last_char]. rewrite IH.
  destruct (a ++ b) as [|y r] eqn:E; [|reflexivity].
  destruct a; [|discriminate E]. simpl in E. now subst b.
Qed.

Lemma plain_first (s : string) :
  plain_component s = true -> char_is is_dash (first_char s) = false.
Proof.
  unfold plain_component, clean_ends.
  intros [_ [H _]%andb_true_iff]%andb_true_iff. now apply negb_true_iff.
Qed.

Lemma plain_last (s : string) :
  plain_component s = true -> char_is is_dash (last_char s) = false.
Proof.
  unfold plain_component, clean_ends.
  intros [_ [_ H]%andb_true_iff]%andb_true_iff. now apply negb_true_iff.
Qed.

Lemma plain_truthy (s : string) : plain_component s = true -> PyStr.truthy s = true.
Proof. unfold plain_component. now intros [H _]%andb_true_iff. Qed.

Lemma strip_dash_between (a mid b : string) :
  plain_component a = true -> plain_component b = true ->
  PyStr.strip_chars "-" (a ++ mid ++ b) = a ++ mid ++ b.
Proof.
  intros Ha Hb. apply (strip_by_noop is_dash). unfold clean_ends.
  rewrite first_char_app by now apply plain_truthy.
  rewrite <- string_app_assoc, last_char_app by now apply plain_truthy.
  fold is_dash. now rewrite (plain_first _ Ha), (plain_last _ Hb).
Qed.

Lemma rstrip_app_stripped (p : ascii -> bool) (s : string) (c : ascii) :
  p c = true ->
  PyStr.rstrip_by p (s ++ String c EmptyString) = PyStr.rstrip_by p s.
Proof.
  intros Hc. induction s as [|x s IH]; cbn [append PyStr.rstrip_by].
  - now rewrite Hc.
  - now rewrite IH.
Qed.

(** X13: the publication date never begins and never ends with the
    separator, whatever the three components are. *)
Theorem publication_date_no_dangling_separator (pub_year pub_month pub_day : pyval) :
  clean_ends is_dash (format_date pub_year pub_month pub_day) = true.
Proof. unfold format_date. exact (strip_by_clean is_dash _). Qed.

(** X14: when the year and the day are present (and neither begins nor
    ends with the separator) the date is year, month and day with a
    separator after the year and one before the day, whatever the month
    is: an empty month leaves the two separators next to each other. *)
Theorem publication_date_year_and_day (y m d : string) :
  plain_component y = true ->
  plain_component d = true ->
  format_date (PStr y) (PStr m) (PStr d) = y ++ "-" ++ m ++ "-" ++ d /\
  format_date (PStr y) (PStr "") (PStr d) = y ++ "--" ++ d.
Proof.
  intros Hy Hd. unfold format_date. cbn [py_str]. split.
  - pose proof (strip_dash_between y ("-" ++ m ++ "-") d Hy Hd) as H.
    rewrite !string_app_assoc in H. exact H.
  - exact (strip_dash_between y "--" d Hy Hd).
Qed.

Lemma publication_date_year_and_day_witness :
  format_date (PStr "2020") (PStr "Jan") (PStr "15") = "2020" ++ "-" ++ "Jan" ++ "-" ++ "15" /\
  format_date (PStr "2020") (PStr "") (PStr "15") = "2020" ++ "--" ++ "15".
Proof.
  apply (publication_date_year_and_day "2020" "Jan" "15"); reflexivity.
Defined.

Lemma string_app_nil_r (s : string) : s ++ "" = s.
Proof. induction s as [|c s IH]; simpl; [reflexivity|now rewrite IH]. Qed.

Lemma lstrip_padding (p : ascii -> bool) (pre s : string) :
  any_char (fun c => negb (p c)) pre = false ->
  PyStr.lstrip_by p (pre ++ s) = PyStr.lstrip_by p s.
Proof.
  induction pre as [|c pre IH]; [reflexivity|].
  cbn [any_char append PyStr.lstrip_by].
  intros [Hc Hpre]%orb_false_iff. apply negb_false_iff in Hc.
  rewrite Hc. now apply IH.
Qed.

Lemma rstrip_padding (p : ascii -> bool) (post s : string) :
  any_char (fun c => negb (p c)) post = false ->
  PyStr.rstrip_by p (s ++ post) = PyStr.rstrip_by p s.
Proof.
  revert s. induction post as [|c post IH]; intros s.
  - intros _. now rewrite string_app_nil_r.
  - cbn [any_char]. intros [Hc Hpost]%orb_false_iff. apply negb_false_iff in Hc.
    change (s ++ String c post) with (s ++ String c EmptyString ++ post).
    rewrite <- string_app_assoc, (IH _ Hpost). now apply rstrip_app_stripped.
Qed.

Lemma strip_dash_padding (pre s post : string) :
  any_char (fun c => negb (is_dash c)) pre = false ->
  any_char (fun c => negb (is_dash c)) post = false ->
  plain_component s = true ->
  PyStr.strip_chars "-" (pre ++ s ++ post) = s.
Proof.
  intros Hpre Hpost Hs. unfold PyStr.strip_chars, PyStr.strip_by. fold is_dash.
  rewrite (lstrip_padding is_dash pre _ Hpre).
  rewrite (lstrip_noop is_dash)
    by (rewrite first_char_app by (now apply plain_truthy); now apply plain_first).
  rewrite (rstrip_padding is_dash post _ Hpost).
  apply rstrip_noop. now apply plain_last.
Qed.

Lemma plain_join (a mid b : string) :
  plain_component a = true -> plain_component b = true ->
  plain_component (a ++ mid ++ b) = true.
Proof.
  intros Ha Hb. unfold plain_component, clean_ends.
  rewrite first_char_app by now apply plain_truthy.
  rewrite <- string_app_assoc, last_char_app by now apply plain_truthy.
  rewrite (plain_first _ Ha), (plain_last _ Hb).
  pose proof (plain_truthy _ Ha) as Ht. destruct a; [discriminate Ht|reflexivity].
Qed.

(** X15: components missing at the ends go away with their separators: a
    year and a month give year-month, a year alone gives the year, a month
    and a day give month-day, a day or a month alone gives itself, and no
    component at all gives the empty text. *)
Theorem publication_date_missing_ends (a b : string) :
  plain_component a = true ->
  plain_component b = true ->
  format_date (PStr a) (PStr b) (PStr "") = a ++ "-" ++ b /\
  format_date (PStr "") (PStr a) (PStr b) = a ++ "-" ++ b /\
  format_date (PStr a) (PStr "") (PStr "") = a /\
  format_date (PStr "") (PStr a) (PStr "") = a /\
  format_date (PStr "") (PStr "") (PStr a) = a /\
  format_date (PStr "") (PStr "") (PStr "") = "".
Proof.
  intros Ha Hb. unfold format_date. cbn [py_str].
  pose proof (plain_join a "-" b Ha Hb) as Hab.
  repeat split.
  - pose proof (strip_dash_padding "" (a ++ "-" ++ b) "-" eq_refl eq_refl Hab) as H.
    rewrite !string_app_assoc in H. exact H.
  - pose proof (strip_dash_padding "-" (a ++ "-" ++ b) "" eq_refl eq_refl Hab) as H.
    rewrite string_app_nil_r in H. exact H.
  - exact (strip_dash_padding "" a "--" eq_refl eq_refl Ha).
  - exact (strip_dash_padding "-" a "-" eq_refl eq_refl Ha).
  - pose proof (strip_dash_padding "--" a "" eq_refl eq_refl Ha) as H.
    rewrite string_app_nil_r in H. exact H.
Qed.

Lemma publication_date_missing_ends_witness :
  format_date (PStr "2020") (PStr "Jan") (PStr "") = "2020" ++ "-" ++ "Jan" /\
  format_date (PStr "") (PStr "2020") (PStr "Jan") = "2020" ++ "-" ++ "Jan" /\
  format_date (PStr "2020") (PStr "") (PStr "") = "2020" /\
  format_date (PStr "") (PStr "2020") (PStr "") = "2020" /\
  format_date (PStr "") (PStr "") (PStr "2020") = "2020" /\
  format_date (PStr "") (PStr "") (PStr "") = "".
Proof.
  apply (publication_date_missing_ends "2020" "Jan"); reflexivity.
Defined.

(** ** Batches, further *)

Lemma batches_of_chunks (pmids : list string) : batches_of pmids = chunks pmids.
Proof. exact (slices_chunks pmids 0). Qed.

Lemma chunks_full {A : Type} (l : list A) (b : list A) :
  In b (removelast (chunks l)) -> List.length b = batch_size.
Proof.
  induction l as [|x l IH] using chunks_ind; [contradiction|].
  rewrite chunks_cons. cbn [removelast].
  destruct (chunks (skipn batch_size (x :: l))) as [|c cs] eqn:Hc; [contradiction|].
  intros [<-|Hin]; [|exact (IH Hin)].
  rewrite length_firstn. apply Nat.min_l.
  destruct (le_lt_dec (List.length (x :: l)) batch_size) as [Hle|Hlt]; [|lia].
  rewrite (skipn_all2 _ Hle) in Hc. discriminate Hc.
Qed.

(** X16: every batch sent to the source but the last one holds exactly 100
    identifiers. *)
Theorem batches_full_but_last (pmids : list string) (b : list string) :
  In b (removelast (batches_of pmids)) -> List.length b = 100.
Proof. rewrite batches_of_chunks. apply chunks_full. Qed.

Lemma batches_full_but_last_witness :
  List.length (firstn 100 (sample_ids 250)) = 100.
Proof.
  apply (batches_full_but_last (sample_ids 250)).
  vm_compute. left. reflexivity.
Defined.

(** X17: a list of 1 to 100 identifiers is fetched with a single call to
    the source, on the whole list: the records returned are what that one
    response contributes, and the source is left as that call leaves it. *)
Theorem fetch_small_list_single_call (World : Type)
    (efetch_read : list string -> World -> result pyval * World)
    (pmids : list string) (w : World) :
  1 <= List.length pmids <= 100 ->
  batches_of pmids = [pmids] /\
  papers_data (fetch_paper_details World efetch_read pmids w)
  = contribution (fst (efetch_read pmids w)) /\
  world (fetch_paper_details World efetch_read pmids w)
  = snd (efetch_read pmids w).
Proof.
  intros [Hlo Hhi].
  assert (Hr : range_batches 0 (List.length pmids) = [0]).
  { rewrite range_batches_lt by lia. rewrite range_batches_ge; [reflexivity|].
    unfold batch_size. lia. }
  assert (Hs : py_slice pmids 0 (0 + batch_size) = pmids).
  { unfold py_slice, batch_size. cbn [Nat.add Nat.sub skipn].
    now apply firstn_all2. }
  split; [unfold batches_of; rewrite Hr; cbn [map]; now rewrite Hs|].
  unfold fetch_paper_details. destruct pmids as [|x l] eqn:E; [simpl in Hlo; lia|].
  rewrite Hr. cbn [fold_left]. unfold fetch_batch. rewrite Hs.
  cbn [world]. unfold contribution.
  destruct (efetch_read (x :: l) w) as [r w']. cbn [fst snd].
  destruct (batch_articles r); split; reflexivity.
Qed.

Lemma fetch_small_list_single_call_witness :
  batches_of (sample_ids 3) = [sample_ids 3] /\
  papers_data (fetch_paper_details nat second_call_fails (sample_ids 3) 0)
  = contribution (fst (second_call_fails (sample_ids 3) 0)) /\
  world (fetch_paper_details nat second_call_fails (sample_ids 3) 0)
  = snd (second_call_fails (sample_ids 3) 0).
Proof.
  apply (fetch_small_list_single_call nat second_call_fails (sample_ids 3) 0).
  vm_compute. split; repeat constructor.
Defined.

Lemma range_batches_numbers (j n : nat) :
  map (fun i => i / batch_size + 1) (range_batches (j * batch_size) n)
  = seq (j + 1) (List.length (range_batches (j * batch_size) n)).
Proof.
  remember (n - j * batch_size) as k eqn:Hk. revert j Hk.
  induction k as [k IH] using lt_wf_ind. intros j Hk.
  destruct (le_lt_dec n (j * batch_size)) as [Hge|Hlt].
  - now rewrite (range_batches_ge _ _ Hge).
  - rewrite (range_batches_lt _ _ Hlt). cbn [map List.length seq].
    rewrite Nat.div_mul by (unfold batch_size; lia).
    change (j * batch_size + batch_size) with (j * batch_size + batch_size).
    replace (j * batch_size + batch_size) with ((j + 1) * batch_size) by lia.
    rewrite (IH (n - (j + 1) * batch_size)) by (unfold batch_size in *; lia).
    now replace (j + 1 + 1) with (S (j + 1)) by lia.
Qed.

Lemma combine_map_l {A B C : Type} (f : A -> B) (l : list A) (l' : list C) :
  combine (map f l) l' = map (fun p => (f (fst p), snd p)) (combine l l').
Proof.
  revert l'. induction l as [|x l IH]; intros [|y l']; cbn; try reflexivity.
  now rewrite IH.
Qed.

Section FetchLog.

Variable World : Type.
Variable efetch_read : list string -> World -> result pyval * World.

Lemma fetch_fold_log (pmids : list string) (idx : list nat)
    (st : fetch_state World) :
  fetch_log (fold_left (fetch_batch World efetch_read pmids) idx st) =
  (fetch_log st ++
   map (fun kr => batch_log_entry (fst kr) (snd kr))
     (combine (map (fun i => i / batch_size + 1) idx)
        (responses World efetch_read
           (map (fun j => py_slice pmids j (j + batch_size)) idx)
           (world st))))%list.
Proof.
  revert st. induction idx as [|i idx IH]; intros st; cbn [fold_left map].
  - cbn. now rewrite app_nil_r.
  - rewrite IH. unfold fetch_batch. cbn [responses].
    destruct (efetch_read _ (world st)) as [r w']. cbn [combine map fst snd].
    unfold batch_log_entry at 2.
    destruct (batch_articles r) as [articles|e]; cbn [fetch_log world];
      now rewrite <- app_assoc.
Qed.

End FetchLog.

(** X18: the log of a fetch of a non-empty list opens with the number of
    identifiers, then holds one line per batch, in order and numbered from
    1, saying that the batch was fetched or that it failed and with which
    exception, and closes with the number of records returned.  A fetch of
    the empty list logs nothing. *)
Theorem fetch_log_lines (World : Type)
    (efetch_read : list string -> World -> result pyval * World)
    (pmids : list string) (w : World) :
  fetch_log (fetch_paper_details World efetch_read pmids w) =
  match pmids with
  | [] => []
  | _ :: _ =>
      (InfoFetching (List.length pmids)
         :: map (fun kr => batch_log_entry (fst kr) (snd kr))
              (combine (seq 1 (List.length (batches_of pmids)))
                 (responses World efetch_read (batches_of pmids) w))
         ++ [InfoFetched
               (List.length
                  (papers_data (fetch_paper_details World efetch_read pmids w)))])%list
  end.
Proof.
  unfold fetch_paper_details at 1. destruct pmids as [|x l] eqn:E; [reflexivity|].
  cbn [fetch_log]. rewrite fetch_fold_log. cbn [fetch_log world app].
  rewrite (range_batches_numbers 0). cbn [Nat.mul Nat.add].
  unfold batches_of. rewrite length_map. rewrite <- E.
  unfold fetch_paper_details. rewrite E. reflexivity.
Qed.

(** ** The search *)

(** X19: [search_pubmed] calls the source once, with the query and the
    decimal text of [retmax], and always returns a value that has a
    length: the [IdList] of the response as it is, or the empty list when
    the source fails, the response is not a mapping, the key is missing or
    its value has no length.  The log then ends with the error. *)
Theorem search_pubmed_result (World : Type)
    (esearch_read : string -> string -> World -> result pyval * World)
    (query : string) (retmax : Z) (w : World) :
  let out := search_pubmed esearch_read query retmax w in
  let pmids := fst (fst out) in
  snd out = snd (esearch_read query (py_str_int retmax) w) /\
  is_ok (py_len pmids) = true /\
  match fst (esearch_read query (py_str_int retmax) w) with
  | Ok (PDict d) =>
      match assoc "IdList" d with
      | Some v =>
          if is_ok (py_len v)
          then pmids = v
          else pmids = PList []
               /\ snd (fst out)
                  = [InfoSearching query; ErrorSearching (SearchRaised TypeError)]
      | None =>
          pmids = PList []
          /\ snd (fst out) = [InfoSearching query; ErrorSearching (KeyError "IdList")]
      end
  | Ok _ =>
      pmids = PList []
      /\ snd (fst out) = [InfoSearching query; ErrorSearching (SearchRaised TypeError)]
  | Raise e =>
      pmids = PList []
      /\ snd (fst out) = [InfoSearching query; ErrorSearching (SearchRaised e)]
  end.
Proof.
  unfold search_pubmed. cbn zeta.
  destruct (esearch_read query (py_str_int retmax) w) as [[record|e] w'];
    cbn [fst snd]; [|now repeat split].
  destruct record as [|s|l|d]; cbn [py_item]; try now repeat split.
  destruct (assoc "IdList" d) as [v|]; [|now repeat split].
  destruct v as [|s|l|d']; cbn [py_len is_ok fst snd]; now repeat split.
Qed.

Example search_default_retmax :
  search_pubmed (answer_with (PDict [("Count", PStr "2"); ("IdList", PList [PStr "31"; PStr "32"])]))
    "aspirin" default_retmax 0
  = (PList [PStr "31"; PStr "32"], [InfoSearching "aspirin"; InfoFound 2], 1)
  /\ py_str_int default_retmax = "1000".
Proof. vm_compute. split; reflexivity. Qed.

(** ** Composition *)

Lemma process_papers_ok_safe (debug : bool) (papers : list pyval)
    (rows : list PaperSummary) :
  snd (process_papers debug papers) = Ok rows ->
  forallb handler_safe papers = true /\ rows = flat_map emitted papers.
Proof.
  intros H.
  assert (Hs : forallb handler_safe papers = true).
  { rewrite <- (papers_loop_ok debug papers [] []), <- process_papers_snd, H.
    reflexivity. }
  split; [exact Hs|].
  rewrite process_papers_snd, (papers_loop_full _ _ _ _ Hs) in H.
  now injection H as <-.
Qed.

(** X20: processing distributes over concatenation: when two lists of
    records are each processed to the end, processing them as one list
    returns the rows of the first followed by the rows of the second (so
    the records of several batches give the same rows processed together
    or batch by batch). *)
Theorem process_papers_app (debug : bool) (l1 l2 : list pyval)
    (rows1 rows2 : list PaperSummary) :
  snd (process_papers debug l1) = Ok rows1 ->
  snd (process_papers debug l2) = Ok rows2 ->
  snd (process_papers debug (l1 ++ l2)) = Ok (rows1 ++ rows2)%list.
Proof.
  intros [H1 ->]%process_papers_ok_safe [H2 ->]%process_papers_ok_safe.
  rewrite process_papers_snd, papers_loop_full by (rewrite forallb_app; now rewrite H1, H2).
  cbn [snd app]. now rewrite flat_map_app.
Qed.

Lemma process_papers_app_witness :
  snd (process_papers false ([industry_paper; broken_paper] ++ [two_field_paper]))
  = Ok ([industry_summary]
        ++ [mkSummary (PStr "5") (PStr "A title") "2019" "Cy Poe; Ann Lee"
              "Dept. of Biology; Novartis AG" "cy.poe@acme.com"])%list.
Proof.
  apply (process_papers_app false [industry_paper; broken_paper] [two_field_paper]);
    vm_compute; reflexivity.
Defined.

(** ** Authors without affiliation *)

Lemma affil_loop_no_mapping (l : list pyval) (st : list pyval * option string) :
  forallb (fun x => negb (is_dict x)) l = true ->
  for_each affil_step l st = Ok st.
Proof.
  induction l as [|x l IH]; [reflexivity|].
  cbn [forallb for_each]. intros [Hx Hl]%andb_true_iff.
  apply negb_true_iff in Hx. destruct st as [texts e].
  unfold affil_step at 1. rewrite Hx. cbn [bind]. exact (IH Hl).
Qed.

(** X21: an author entry whose affiliation info is missing, empty or holds
    no mapping is read without an exception, with an empty affiliation
    text and no email, and is never classified non-academic. *)
Theorem author_without_affiliation_is_academic (d : list (string * pyval)) :
  forallb (fun x => negb (is_dict x))
    (as_list (field d "AffiliationInfo" (PList []))) = true ->
  exists au,
    normalize_author (PDict d) = Ok au /\
    author_affiliation au = "" /\
    author_email au = None /\
    classified_non_academic au = false.
Proof.
  intros H. unfold normalize_author. cbn [py_get bind].
  fold (field d "AffiliationInfo" (PList [])).
  destruct (as_list (field d "AffiliationInfo" (PList []))) as [|x l] eqn:E.
  - eexists. repeat split.
  - rewrite (affil_loop_no_mapping _ _ H). cbn [bind fst snd py_join texts_of PyStr.join].
    eexists. repeat split.
Qed.

Lemma author_without_affiliation_is_academic_witness :
  exists au,
    normalize_author (PDict [("LastName", PStr "Lee"); ("AffiliationInfo", PStr "Acme Inc")])
    = Ok au /\
    author_affiliation au = "" /\
    author_email au = None /\
    classified_non_academic au = false.
Proof.
  apply (author_without_affiliation_is_academic
           [("LastName", PStr "Lee"); ("AffiliationInfo", PStr "Acme Inc")]).
  reflexivity.
Defined.
